(** * hitbtc-cryptoexchange-api: the request agent, the signing helper and the
    client facade of [src/index.ts], embedded in Rocq.

[src/index.ts] holds the two variants of the library one after the other:
the HTTP Basic Auth variant (module [BasicAuth] below) and the HMAC variant
(module [Hmac]).  JavaScript values are modelled by [JsVal]; promises by the
way they settle together with the list of requests handed to the HTTP
transport. *)

From Stdlib Require Import String Ascii List ZArith Bool Lia.
From Stdlib Require Import QArith Qround DecimalString DecimalZ DecimalPos.
Import ListNotations.

Local Close Scope Q_scope.
Local Open Scope list_scope.
Local Open Scope string_scope.

Set Warnings "-register-all".

(* ===================================================================== *)
(** ** JavaScript values *)
(* ===================================================================== *)

(** The fragment of JavaScript values the library handles: primitives and
    plain objects.  Numbers are the integers the request parameters use;
    an object is its own enumerable properties in insertion order. *)
Inductive JsVal : Type :=
| JUndefined
| JNull
| JBool (b : bool)
| JNum (n : Z)
| JStr (s : string)
| JObj (fields : list (string * JsVal)).

Definition Fields := list (string * JsVal).

(** ToBoolean: what [!v], [v ? a : b] and [v || w] test. *)
Definition truthy (v : JsVal) : bool :=
  match v with
  | JUndefined | JNull => false
  | JBool b => b
  | JNum n => negb (n =? 0)%Z
  | JStr s => negb (s =? EmptyString)
  | JObj _ => true
  end.

(** The outcome of evaluating an expression or a function body: a value, or
    a thrown exception.  A promise settles the same way: [Normal] is
    fulfilled, [Throw] is rejected with the given reason. *)
Inductive Completion (A : Type) : Type :=
| Normal (a : A)
| Throw (e : JsVal).
Arguments Normal {A} a.
Arguments Throw {A} e.

Definition bind {A B : Type} (c : Completion A) (k : A -> Completion B)
  : Completion B :=
  match c with
  | Normal a => k a
  | Throw e => Throw e
  end.

Declare Scope js_scope.
Delimit Scope js_scope with js.
Notation "x <- c ;; k" := (bind c (fun x => k))
  (at level 61, c at next level, right associativity) : js_scope.

(** The TypeError V8 raises on reading a property of [undefined] or [null]. *)
Definition typeName (v : JsVal) : string :=
  match v with
  | JUndefined => "undefined"
  | JNull => "null"
  | JBool _ => "boolean"
  | JNum _ => "number"
  | JStr _ => "string"
  | JObj _ => "object"
  end.

Definition TypeError (message : string) : JsVal :=
  JObj [("name", JStr "TypeError"); ("message", JStr message)].

Definition cannotRead (k : string) (v : JsVal) : JsVal :=
  TypeError ("Cannot read property '" ++ k ++ "' of " ++ typeName v).

Fixpoint lookup (k : string) (fs : Fields) : option JsVal :=
  match fs with
  | [] => None
  | (k', v) :: rest => if k' =? k then Some v else lookup k rest
  end.

(** Property read [v.k].  It throws on [undefined] and [null]; a missing
    property reads as [undefined]; the primitives have none of the property
    names this library reads ([response], [data], [error], [headers],
    [publicKey], [privateKey]). *)
Definition get (v : JsVal) (k : string) : Completion JsVal :=
  match v with
  | JUndefined | JNull => Throw (cannotRead k v)
  | JObj fs => Normal (match lookup k fs with Some x => x | None => JUndefined end)
  | JBool _ | JNum _ | JStr _ => Normal JUndefined
  end.

(** Property definition in an object literal: an existing key keeps its
    place and takes the new value, a new key goes last. *)
Fixpoint set_prop (k : string) (v : JsVal) (fs : Fields) : Fields :=
  match fs with
  | [] => [(k, v)]
  | (k', v') :: rest =>
      if k' =? k then (k, v) :: rest else (k', v') :: set_prop k v rest
  end.

(** Object spread [{ ...acc, ...src }]: copies the own properties of an
    object; [null], [undefined] and the other primitives contribute
    nothing (index properties of a spread string are outside the model). *)
Definition spread (src : JsVal) (acc : Fields) : Fields :=
  match src with
  | JObj fs => fold_left (fun o kv => set_prop (fst kv) (snd kv) o) fs acc
  | _ => acc
  end.

(** [${n}] and [String(n)] for an integer. *)
Definition Number_toString (n : Z) : string :=
  NilZero.string_of_int (Z.to_int n).

(* ===================================================================== *)
(** ** The two library calls that turn parameters into text *)
(* ===================================================================== *)

Definition join (sep : string) (parts : list string) : string :=
  match parts with
  | [] => EmptyString
  | p :: ps => fold_left (fun acc x => acc ++ sep ++ x) ps p
  end.

Definition hexDigit (upper : bool) (n : nat) : ascii :=
  let digits := if upper then "0123456789ABCDEF" else "0123456789abcdef" in
  match String.get n digits with
  | Some c => c
  | None => "0"%char
  end.

Module Qs.

(** The characters [qs] leaves as they are (RFC 3986 unreserved). *)
Definition unreserved (c : ascii) : bool :=
  let n := nat_of_ascii c in
  (((48 <=? n) && (n <=? 57)) || ((65 <=? n) && (n <=? 90))
   || ((97 <=? n) && (n <=? 122))
   || (n =? 45) || (n =? 46) || (n =? 95) || (n =? 126))%nat.

(** Percent-encoding, byte by byte (a string is its UTF-8 bytes). *)
Fixpoint encode (s : string) : string :=
  match s with
  | EmptyString => EmptyString
  | String c rest =>
      if unreserved c then String c (encode rest)
      else
        let n := nat_of_ascii c in
        String "%" (String (hexDigit true (n / 16)%nat)
                      (String (hexDigit true (n mod 16)%nat) (encode rest)))
  end.

(** The [key=value] pairs of one value under the key [prefix], with the
    defaults of [qs.stringify]: [undefined] is left out, [null] gives an
    empty value, a nested object extends the key with brackets. *)
Fixpoint pairs (prefix : string) (v : JsVal) : list string :=
  match v with
  | JUndefined => []
  | JNull => [encode prefix ++ "="]
  | JBool b => [encode prefix ++ "=" ++ (if b then "true" else "false")]
  | JNum n => [encode prefix ++ "=" ++ encode (Number_toString n)]
  | JStr s => [encode prefix ++ "=" ++ encode s]
  | JObj fs =>
      (fix members (l : Fields) : list string :=
         match l with
         | [] => []
         | (k, x) :: rest => (pairs (prefix ++ "[" ++ k ++ "]") x ++ members rest)%list
         end) fs
  end.

(** [qs.stringify(obj)]: the empty string for anything but an object. *)
Definition stringify (obj : JsVal) : string :=
  match obj with
  | JObj fs => join "&" (flat_map (fun kv => pairs (fst kv) (snd kv)) fs)
  | _ => EmptyString
  end.

End Qs.

Module JSON.

(** The double-quote character. *)
Definition dquote : string := String (ascii_of_nat 34) EmptyString.

(** QuoteJSONString, byte by byte. *)
Fixpoint escape (s : string) : string :=
  match s with
  | EmptyString => EmptyString
  | String c rest =>
      let n := nat_of_ascii c in
      (if (n =? 34)%nat then "\" ++ dquote
       else if (n =? 92)%nat then "\\"
       else if (n =? 8)%nat then "\b"
       else if (n =? 12)%nat then "\f"
       else if (n =? 10)%nat then "\n"
       else if (n =? 13)%nat then "\r"
       else if (n =? 9)%nat then "\t"
       else if (n <? 32)%nat then
         "\u00" ++ String (hexDigit false (n / 16)%nat)
                     (String (hexDigit false (n mod 16)%nat) EmptyString)
       else String c EmptyString) ++ escape rest
  end.

Definition quote (s : string) : string := dquote ++ escape s ++ dquote.

(** [JSON.stringify(v)] for a value other than [undefined]; a member whose
    value is [undefined] is left out of its object. *)
Fixpoint stringify (v : JsVal) : string :=
  match v with
  | JUndefined => "undefined"
  | JNull => "null"
  | JBool b => if b then "true" else "false"
  | JNum n => Number_toString n
  | JStr s => quote s
  | JObj fs =>
      "{" ++ join ","
        ((fix members (l : Fields) : list string :=
            match l with
            | [] => []
            | (k, JUndefined) :: rest => members rest
            | (k, x) :: rest => (quote k ++ ":" ++ stringify x) :: members rest
            end) fs) ++ "}"
  end.

End JSON.

(* ===================================================================== *)
(** ** Agent configuration (the same in both variants) *)
(* ===================================================================== *)

Definition rootUrl : string := "https://api.hitbtc.com/api/2".
Definition timeout : Z := 3000.

Definition defaultAgentConfig : Fields :=
  [ ("baseURL", JStr rootUrl);
    ("headers",
      JObj [ ("Content-Type", JStr "application/json");
             ("User-Agent",
               JStr "HitBTC API Client (hitbtc-cryptoexchange-api node package)") ]);
    ("method", JStr "GET");
    ("timeout", JNum timeout) ].

(** [{ ...defaultAgentConfig }] *)
Definition publicAgentConfig : Fields := spread (JObj defaultAgentConfig) [].

(** [{ ...defaultAgentConfig, method: 'POST' }] *)
Definition privateAgentConfig : Fields :=
  set_prop "method" (JStr "POST") (spread (JObj defaultAgentConfig) []).

(** The operations of [IHitBtcClient] as data, to speak of all of them;
    the two variants offer the same ones. *)
Inductive PublicCall : Type :=
| GetAvailableCurrencySymbols
| GetSymbolInfo (symbolId : string)
| GetAvailableCurrencies
| GetCurrencyInfo (currencyId : string)
| GetTicker
| GetTickerInfo (symbolId : string)
| GetTradesInfo (symbolId : string) (queryParams : JsVal)
| GetOrderBook (symbolId : string) (queryParams : JsVal)
| GetCandle (symbolId : string) (queryParams : JsVal).

Inductive PrivateCall : Type :=
| ListOpenOrders (symbolId : JsVal)
| CreateNewOrder (params : JsVal)
| CancelAllOrders (params : JsVal)
| GetOrderByClientId (clientOrderId : string) (params : JsVal)
| CreateNewClientIdOrder (clientOrderId : string) (params : JsVal)
| CancelClientIdOrder (clientOrderId : string)
| ReplaceOrder (clientOrderId : string)
| GetTradingBalances
| GetTradingFee (symbolId : string)
| GetTrades (params : JsVal)
| GetOrders (params : JsVal)
| GetTradesByOrderId (orderId : Z)
| GetMainAccountBalance
| GetAccountTransactions (params : JsVal)
| GetAccountTransactionById (transactionId : string)
| WithdrawCrypto (params : JsVal)
| CommitCryptoWithdraw (id : string)
| RollbackCryptoWithdraw (id : string)
| GetCryptoDepositAddress (currencyId : string)
| CreateCryptoDepositAddress (currencyId : string)
| TransferToTrading (params : JsVal).

(** A parameter declared with the default [= null]. *)
Definition defaultNull (config : JsVal) : JsVal :=
  match config with
  | JUndefined => JNull
  | _ => config
  end.

(** What a call into the agent leaves behind: how its promise settles, and
    the request configurations handed to the HTTP transport, in order. *)
Record Outcome : Type := { settled : Completion JsVal; issued : list JsVal }.

Definition keysRequired : string :=
  "api keys are required to access private endpoints".

(** [return Promise.reject(reason)] before anything is sent, and an exception
    that escapes the [async] body before the transport is reached. *)
Definition rejectUnsent (reason : JsVal) : Outcome :=
  {| settled := Throw reason; issued := [] |}.

(** [err.response.data.error || err.response.data || err.response || err],
    evaluated left to right; every property read may throw. *)
Definition rejectionReason (err : JsVal) : Completion JsVal :=
  (response <- get err "response";;
   data <- get response "data";;
   error <- get data "error";;
   if truthy error then Normal error
   else
     response <- get err "response";;
     data <- get response "data";;
     if truthy data then Normal data
     else
       response <- get err "response";;
       if truthy response then Normal response else Normal err)%js.

Section Transport.

(** The HTTP transport: given a request configuration, a response or a
    thrown error. *)
Variable axios : JsVal -> Completion JsVal.

(** The [try { await axios(agentConfig) } catch (err) { ... }] block every
    request function ends with.  An exception thrown inside [catch]
    rejects the promise with that exception. *)
Definition send (agentConfig : JsVal) : Outcome :=
  {| settled :=
       match axios agentConfig with
       | Normal response => Normal response
       | Throw err =>
           match rejectionReason err with
           | Normal reason => Throw reason
           | Throw raised => Throw raised
           end
       end;
     issued := [agentConfig] |}.

(** [publicRequest] of the Basic Auth variant and [getPublicEndpoint] of
    the HMAC variant have the same body. *)
Definition publicRequestBody (endpoint : string) (queryParams config : JsVal)
  : Outcome :=
  let uri := "/" ++ endpoint ++ "?" ++ Qs.stringify queryParams in
  let agentConfig :=
    JObj (spread config (set_prop "url" (JStr uri)
                           (spread (JObj publicAgentConfig) []))) in
  send agentConfig.

(** [const headersOverride = config ? config.headers : null;
     const headers = { ...privateAgentConfig.headers, ...headersOverride }] *)
Definition privateHeaders (config : JsVal) : Completion JsVal :=
  (headersOverride <- (if truthy config then get config "headers"
                       else Normal JNull);;
   defaults <- get (JObj privateAgentConfig) "headers";;
   Normal (JObj (spread headersOverride (spread defaults []))))%js.

End Transport.

(* ===================================================================== *)
(** ** The HTTP Basic Auth variant *)
(* ===================================================================== *)

Module BasicAuth.

(** [IApiAuth], and the object a caller passes for it. *)
Record IApiAuth : Type := { publicKey : string; privateKey : string }.

Definition authObject (a : IApiAuth) : JsVal :=
  JObj [("publicKey", JStr (publicKey a)); ("privateKey", JStr (privateKey a))].

(** The agent object [getRawAgent(auth)] returns.  [auth] is its property
    [this.auth]; [authParam] is the parameter [auth] of [getRawAgent],
    which the methods of the object close over. *)
Record RawAgent : Type := { auth : JsVal; authParam : JsVal }.

Definition getRawAgent (auth : JsVal) : RawAgent :=
  {| auth := auth; authParam := auth |}.

(** [isUpgraded(): boolean { return this.auth; }] *)
Definition isUpgraded (this : RawAgent) : JsVal := auth this.

(** [upgrade(newAuth): void { this.auth = newAuth; }] *)
Definition upgrade (this : RawAgent) (newAuth : JsVal) : RawAgent :=
  {| auth := newAuth; authParam := authParam this |}.

(** The client [getClient(auth, configOverride)] returns;
    [configOverride] defaults to [null].  Its [isUpgraded] and [upgrade]
    forward to the agent. *)
Record HitBtcClient : Type :=
  { rawAgent : RawAgent; configOverride : JsVal }.

Definition getClient (auth configOverride : JsVal) : HitBtcClient :=
  {| rawAgent := getRawAgent auth;
     configOverride := defaultNull configOverride |}.

Definition clientIsUpgraded (this : HitBtcClient) : JsVal :=
  isUpgraded (rawAgent this).

Definition clientUpgrade (this : HitBtcClient) (newAuth : JsVal)
  : HitBtcClient :=
  {| rawAgent := upgrade (rawAgent this) newAuth;
     configOverride := configOverride this |}.

Section Requests.

Variable axios : JsVal -> Completion JsVal.

Definition publicRequest (this : RawAgent) (endpoint : string)
  (queryParams config : JsVal) : Outcome :=
  publicRequestBody axios endpoint queryParams config.

Definition privateRequest (this : RawAgent) (endpoint method : string)
  (dataParams config : JsVal) : Outcome :=
  if negb (truthy (isUpgraded this)) then rejectUnsent (JStr keysRequired)
  else
    let data := if method =? "GET" then JNull else dataParams in
    let uri :=
      if method =? "GET"
      then "/" ++ endpoint ++ "/" ++ Qs.stringify dataParams
      else "/" ++ endpoint in
    match
      (headers <- privateHeaders config;;
       password <- get (authParam this) "privateKey";;
       username <- get (authParam this) "publicKey";;
       let httpBasicAuth :=
         JObj [("password", password); ("username", username)] in
       Normal
         (JObj
            (spread config
               (set_prop "data" data
                  (set_prop "method" (JStr method)
                     (set_prop "url" (JStr uri)
                        (set_prop "auth" httpBasicAuth
                           (set_prop "headers" headers
                              (spread (JObj privateAgentConfig) []))))))))
      )%js
    with
    | Throw raised => rejectUnsent raised
    | Normal agentConfig => send axios agentConfig
    end.

(** *** Market data *)

Definition getAvailableCurrencySymbols (this : HitBtcClient) : Outcome :=
  publicRequest (rawAgent this) "public/symbol" JNull (configOverride this).

Definition getSymbolInfo (this : HitBtcClient) (symbolId : string) : Outcome :=
  publicRequest (rawAgent this) ("public/symbol/" ++ symbolId) JNull
    (configOverride this).

Definition getAvailableCurrencies (this : HitBtcClient) : Outcome :=
  publicRequest (rawAgent this) "public/currency" JNull (configOverride this).

Definition getCurrencyInfo (this : HitBtcClient) (currencyId : string)
  : Outcome :=
  publicRequest (rawAgent this) ("public/symbol/" ++ currencyId) JNull
    (configOverride this).

Definition getTicker (this : HitBtcClient) : Outcome :=
  publicRequest (rawAgent this) "public/ticker" JNull (configOverride this).

Definition getTickerInfo (this : HitBtcClient) (symbolId : string) : Outcome :=
  publicRequest (rawAgent this) ("public/ticker/" ++ symbolId) JNull
    (configOverride this).

Definition getTradesInfo (this : HitBtcClient) (symbolId : string)
  (queryParams : JsVal) : Outcome :=
  publicRequest (rawAgent this) ("public/trades/" ++ symbolId) queryParams
    (configOverride this).

Definition getOrderBook (this : HitBtcClient) (symbolId : string)
  (queryParams : JsVal) : Outcome :=
  publicRequest (rawAgent this) ("public/orderbook/" ++ symbolId) queryParams
    (configOverride this).

Definition getCandle (this : HitBtcClient) (symbolId : string)
  (queryParams : JsVal) : Outcome :=
  publicRequest (rawAgent this) ("public/candles/" ++ symbolId) queryParams
    (configOverride this).

(** *** Trading *)

Definition listOpenOrders (this : HitBtcClient) (symbolId : JsVal) : Outcome :=
  privateRequest (rawAgent this) "order" "GET" (JObj [("symbol", symbolId)])
    (configOverride this).

Definition createNewOrder (this : HitBtcClient) (params : JsVal) : Outcome :=
  privateRequest (rawAgent this) "order" "POST" params (configOverride this).

Definition cancelAllOrders (this : HitBtcClient) (params : JsVal) : Outcome :=
  privateRequest (rawAgent this) "order" "DELETE" params (configOverride this).

Definition getOrderByClientId (this : HitBtcClient) (clientOrderId : string)
  (params : JsVal) : Outcome :=
  privateRequest (rawAgent this) ("order/" ++ clientOrderId) "POST" params
    (configOverride this).

Definition createNewClientIdOrder (this : HitBtcClient)
  (clientOrderId : string) (params : JsVal) : Outcome :=
  privateRequest (rawAgent this) ("order/" ++ clientOrderId) "PUT" params
    (configOverride this).

Definition cancelClientIdOrder (this : HitBtcClient) (clientOrderId : string)
  : Outcome :=
  privateRequest (rawAgent this) ("order/" ++ clientOrderId) "DELETE" JNull
    (configOverride this).

Definition replaceOrder (this : HitBtcClient) (clientOrderId : string)
  : Outcome :=
  privateRequest (rawAgent this) ("order/" ++ clientOrderId) "PATCH" JNull
    (configOverride this).

Definition getTradingBalances (this : HitBtcClient) : Outcome :=
  privateRequest (rawAgent this) "trading/balance" "GET" JNull
    (configOverride this).

Definition getTradingFee (this : HitBtcClient) (symbolId : string) : Outcome :=
  privateRequest (rawAgent this) ("trading/fee/" ++ symbolId) "GET" JNull
    (configOverride this).

(** *** Trading history *)

Definition getTrades (this : HitBtcClient) (params : JsVal) : Outcome :=
  privateRequest (rawAgent this) "history/trades" "GET" params
    (configOverride this).

Definition getOrders (this : HitBtcClient) (params : JsVal) : Outcome :=
  privateRequest (rawAgent this) "history/order" "GET" params
    (configOverride this).

Definition getTradesByOrderId (this : HitBtcClient) (orderId : Z) : Outcome :=
  privateRequest (rawAgent this)
    ("history/order/" ++ Number_toString orderId ++ "/trades") "GET" JNull
    (configOverride this).

(** *** Account *)

Definition getMainAccountBalance (this : HitBtcClient) : Outcome :=
  privateRequest (rawAgent this) "account/balance" "GET" JNull
    (configOverride this).

Definition getAccountTransactions (this : HitBtcClient) (params : JsVal)
  : Outcome :=
  privateRequest (rawAgent this) "account/transactions" "GET" params
    (configOverride this).

Definition getAccountTransactionById (this : HitBtcClient)
  (transactionId : string) : Outcome :=
  privateRequest (rawAgent this) ("account/transaction/" ++ transactionId)
    "GET" JNull (configOverride this).

Definition withdrawCrypto (this : HitBtcClient) (params : JsVal) : Outcome :=
  privateRequest (rawAgent this) "account/crypto/withdraw" "POST" params
    (configOverride this).

Definition commitCryptoWithdraw (this : HitBtcClient) (id : string) : Outcome :=
  privateRequest (rawAgent this) ("account/crypto/withdraw/" ++ id) "PUT"
    JNull (configOverride this).

Definition rollbackCryptoWithdraw (this : HitBtcClient) (id : string)
  : Outcome :=
  privateRequest (rawAgent this) ("account/crypto/withdraw/" ++ id) "DELETE"
    JNull (configOverride this).

Definition getCryptoDepositAddress (this : HitBtcClient) (currencyId : string)
  : Outcome :=
  privateRequest (rawAgent this) ("account/crypto/address/" ++ currencyId)
    "GET" JNull (configOverride this).

Definition createCryptoDepositAddress (this : HitBtcClient)
  (currencyId : string) : Outcome :=
  privateRequest (rawAgent this) ("account/crypto/address/" ++ currencyId)
    "GET" JNull (configOverride this).

Definition transferToTrading (this : HitBtcClient) (params : JsVal) : Outcome :=
  privateRequest (rawAgent this) "account/transfer" "POST" params
    (configOverride this).

Definition callPublic (this : HitBtcClient) (c : PublicCall) : Outcome :=
  match c with
  | GetAvailableCurrencySymbols => getAvailableCurrencySymbols this
  | GetSymbolInfo symbolId => getSymbolInfo this symbolId
  | GetAvailableCurrencies => getAvailableCurrencies this
  | GetCurrencyInfo currencyId => getCurrencyInfo this currencyId
  | GetTicker => getTicker this
  | GetTickerInfo symbolId => getTickerInfo this symbolId
  | GetTradesInfo symbolId queryParams => getTradesInfo this symbolId queryParams
  | GetOrderBook symbolId queryParams => getOrderBook this symbolId queryParams
  | GetCandle symbolId queryParams => getCandle this symbolId queryParams
  end.

Definition callPrivate (this : HitBtcClient) (c : PrivateCall) : Outcome :=
  match c with
  | ListOpenOrders symbolId => listOpenOrders this symbolId
  | CreateNewOrder params => createNewOrder this params
  | CancelAllOrders params => cancelAllOrders this params
  | GetOrderByClientId clientOrderId params =>
      getOrderByClientId this clientOrderId params
  | CreateNewClientIdOrder clientOrderId params =>
      createNewClientIdOrder this clientOrderId params
  | CancelClientIdOrder clientOrderId => cancelClientIdOrder this clientOrderId
  | ReplaceOrder clientOrderId => replaceOrder this clientOrderId
  | GetTradingBalances => getTradingBalances this
  | GetTradingFee symbolId => getTradingFee this symbolId
  | GetTrades params => getTrades this params
  | GetOrders params => getOrders this params
  | GetTradesByOrderId orderId => getTradesByOrderId this orderId
  | GetMainAccountBalance => getMainAccountBalance this
  | GetAccountTransactions params => getAccountTransactions this params
  | GetAccountTransactionById transactionId =>
      getAccountTransactionById this transactionId
  | WithdrawCrypto params => withdrawCrypto this params
  | CommitCryptoWithdraw id => commitCryptoWithdraw this id
  | RollbackCryptoWithdraw id => rollbackCryptoWithdraw this id
  | GetCryptoDepositAddress currencyId => getCryptoDepositAddress this currencyId
  | CreateCryptoDepositAddress currencyId =>
      createCryptoDepositAddress this currencyId
  | TransferToTrading params => transferToTrading this params
  end.

End Requests.

End BasicAuth.

(* ===================================================================== *)
(** ** The HMAC variant *)
(* ===================================================================== *)

Module Hmac.

(** *** The signing helper *)

Definition Buffer := list Byte.byte.

(** [{ digest: string; timestamp: number }]; the timestamp is a number of
    seconds, kept exact as a rational. *)
Record ISignature : Type := { digest : string; timestamp : Q }.

(** [method.toUpperCase()], on the ASCII letters HTTP verbs are made of. *)
Definition upperChar (c : ascii) : ascii :=
  let n := nat_of_ascii c in
  if ((97 <=? n) && (n <=? 122))%nat then ascii_of_nat (n - 32) else c.

Fixpoint toUpperCase (s : string) : string :=
  match s with
  | EmptyString => EmptyString
  | String c rest => String (upperChar c) (toUpperCase rest)
  end.

Definition digit (d : Z) : string := Number_toString d.

(** The decimals of a number of milliseconds below a second: nothing for
    zero, otherwise a point and up to three digits without trailing zeros. *)
Definition fraction (frac : Z) : string :=
  if (frac =? 0)%Z then EmptyString
  else "." ++ digit (frac / 100)
       ++ (if (frac mod 100 =? 0)%Z then EmptyString
           else digit (frac / 10 mod 10)
                ++ (if (frac mod 10 =? 0)%Z then EmptyString
                    else digit (frac mod 10))).

(** The decimal text of [ms / 1000]: the sign, the whole seconds, the
    decimals. *)
Definition thousandths (ms : Z) : string :=
  let a := Z.abs ms in
  (if (ms <? 0)%Z then "-" else EmptyString)
  ++ Number_toString (a / 1000)
  ++ fraction (a mod 1000).

(** [${timestamp}]: number-to-string of a number of seconds that is a
    whole number of milliseconds, as [Date.now() / 1000] is (the double
    nearest to it prints as this decimal for every clock reading below
    10^15 ms). *)
Definition secondsToString (t : Q) : string :=
  thousandths (Qfloor (t * 1000)).

Section Signing.

(** Node's [crypto] and [Buffer], which the helper calls:
    [new Buffer(s, 'base64')], [createHmac('sha256', key).update(m)
    .digest()] and the base64 text of a digest. *)
Variable fromBase64 : string -> Buffer.
Variable hmacSha256 : Buffer -> string -> Buffer.
Variable toBase64 : Buffer -> string.

(** [Date.now()]: the clock reading, in whole milliseconds. *)
Variable now : Z.

Definition signMessage (privateKey path method : string) (body : JsVal)
  : ISignature :=
  let timestamp := (inject_Z now / 1000)%Q in
  let key := fromBase64 privateKey in
  let hmac := hmacSha256 key in
  let prehash :=
    if truthy body
    then secondsToString timestamp ++ toUpperCase method ++ path
         ++ JSON.stringify body
    else secondsToString timestamp ++ toUpperCase method ++ path in
  let digest := toBase64 (hmac prehash) in
  {| digest := digest; timestamp := timestamp |}.

(** The signing rule in the words of the specification: the digest input
    is the timestamp, the upper-cased method, the path and, when a body
    is present, its JSON text. *)
Definition specPrehash (t : Q) (path method : string) (body : option Fields)
  : string :=
  secondsToString t ++ toUpperCase method ++ path
  ++ match body with
     | Some fs => JSON.stringify (JObj fs)
     | None => EmptyString
     end.

Definition specSign (privateKey path method : string) (body : option Fields)
  : ISignature :=
  {| digest :=
       toBase64 (hmacSha256 (fromBase64 privateKey)
                   (specPrehash (inject_Z now / 1000)%Q path method body));
     timestamp := (inject_Z now / 1000)%Q |}.

End Signing.

(** The optional argument [body?: IPostBody] as the caller passes it. *)
Definition bodyArg (body : option Fields) : JsVal :=
  match body with
  | Some fs => JObj fs
  | None => JUndefined
  end.

(** *** The request agent *)

(** [IApiAuth] of this variant, and the object a caller passes for it. *)
Record IApiAuth : Type :=
  { publicKey : string; privateKey : string; passphrase : string }.

Definition authObject (a : IApiAuth) : JsVal :=
  JObj [ ("publicKey", JStr (publicKey a));
         ("privateKey", JStr (privateKey a));
         ("passphrase", JStr (passphrase a)) ].

(** The agent object: its property [this.auth]. *)
Record RawAgent : Type := { auth : JsVal }.

Definition getRawAgent (auth : JsVal) : RawAgent := {| auth := auth |}.

Definition isUpgraded (this : RawAgent) : JsVal := auth this.

Definition upgrade (this : RawAgent) (newAuth : JsVal) : RawAgent :=
  {| auth := newAuth |}.

Record HitBtcClient : Type :=
  { rawAgent : RawAgent; configOverride : JsVal }.

Definition getClient (auth configOverride : JsVal) : HitBtcClient :=
  {| rawAgent := getRawAgent auth;
     configOverride := defaultNull configOverride |}.

Definition clientIsUpgraded (this : HitBtcClient) : JsVal :=
  isUpgraded (rawAgent this).

Definition clientUpgrade (this : HitBtcClient) (newAuth : JsVal)
  : HitBtcClient :=
  {| rawAgent := upgrade (rawAgent this) newAuth;
     configOverride := configOverride this |}.

Section Requests.

Variable axios : JsVal -> Completion JsVal.

(** What the five private request functions do once the guard has passed
    and the uri is built: the headers, the configuration, the request.
    [own] lists the properties the function writes after [headers], in
    the order of its object literal. *)
Definition issuePrivate (own : list (string * JsVal)) (config : JsVal)
  : Outcome :=
  match
    (headers <- privateHeaders config;;
     Normal
       (JObj
          (spread config
             (spread (JObj own)
                (set_prop "headers" headers
                   (spread (JObj privateAgentConfig) []))))))%js
  with
  | Throw raised => rejectUnsent raised
  | Normal agentConfig => send axios agentConfig
  end.

Definition deleteFromPrivateEndpoint (this : RawAgent) (endpoint : string)
  (queryParams config : JsVal) : Outcome :=
  let config := defaultNull config in
  if negb (truthy (isUpgraded this)) then rejectUnsent (JStr keysRequired)
  else
    let uri := "/" ++ endpoint ++ "?" ++ Qs.stringify queryParams in
    issuePrivate [("method", JStr "DELETE"); ("url", JStr uri)] config.

Definition getFromPrivateEndpoint (this : RawAgent) (endpoint : string)
  (queryParams config : JsVal) : Outcome :=
  let config := defaultNull config in
  if negb (truthy (isUpgraded this)) then rejectUnsent (JStr keysRequired)
  else
    let uri := "/" ++ endpoint ++ "?" ++ Qs.stringify queryParams in
    issuePrivate [("method", JStr "GET"); ("url", JStr uri)] config.

Definition getPublicEndpoint (this : RawAgent) (endpoint : string)
  (queryParams config : JsVal) : Outcome :=
  publicRequestBody axios endpoint queryParams (defaultNull config).

Definition patchToPrivateEndpoint (this : RawAgent) (endpoint : string)
  (data config : JsVal) : Outcome :=
  let config := defaultNull config in
  if negb (truthy (isUpgraded this)) then rejectUnsent (JStr keysRequired)
  else
    let uri := "/" ++ endpoint in
    issuePrivate
      [("url", JStr uri); ("method", JStr "PATCH"); ("data", data)] config.

Definition postToPrivateEndpoint (this : RawAgent) (endpoint : string)
  (data config : JsVal) : Outcome :=
  let config := defaultNull config in
  if negb (truthy (isUpgraded this)) then rejectUnsent (JStr keysRequired)
  else
    let uri := "/" ++ endpoint in
    issuePrivate
      [("url", JStr uri); ("method", JStr "POST"); ("data", data)] config.

Definition putToPrivateEndpoint (this : RawAgent) (endpoint : string)
  (data config : JsVal) : Outcome :=
  if negb (truthy (isUpgraded this)) then rejectUnsent (JStr keysRequired)
  else
    let uri := "/" ++ endpoint in
    issuePrivate
      [("url", JStr uri); ("method", JStr "PUT"); ("data", data)] config.

(** *** Market data *)

Definition getAvailableCurrencySymbols (this : HitBtcClient) : Outcome :=
  getPublicEndpoint (rawAgent this) "public/symbol" JNull (configOverride this).

Definition getSymbolInfo (this : HitBtcClient) (symbolId : string) : Outcome :=
  getPublicEndpoint (rawAgent this) ("public/symbol/" ++ symbolId) JNull
    (configOverride this).

Definition getAvailableCurrencies (this : HitBtcClient) : Outcome :=
  getPublicEndpoint (rawAgent this) "public/currency" JNull
    (configOverride this).

Definition getCurrencyInfo (this : HitBtcClient) (currencyId : string)
  : Outcome :=
  getPublicEndpoint (rawAgent this) ("public/symbol/" ++ currencyId) JNull
    (configOverride this).

Definition getTicker (this : HitBtcClient) : Outcome :=
  getPublicEndpoint (rawAgent this) "public/ticker" JNull (configOverride this).

Definition getTickerInfo (this : HitBtcClient) (symbolId : string) : Outcome :=
  getPublicEndpoint (rawAgent this) ("public/ticker/" ++ symbolId) JNull
    (configOverride this).

Definition getTradesInfo (this : HitBtcClient) (symbolId : string)
  (queryParams : JsVal) : Outcome :=
  getPublicEndpoint (rawAgent this) ("public/trades/" ++ symbolId)
    queryParams (configOverride this).

Definition getOrderBook (this : HitBtcClient) (symbolId : string)
  (queryParams : JsVal) : Outcome :=
  getPublicEndpoint (rawAgent this) ("public/orderbook/" ++ symbolId)
    queryParams (configOverride this).

Definition getCandle (this : HitBtcClient) (symbolId : string)
  (queryParams : JsVal) : Outcome :=
  getPublicEndpoint (rawAgent this) ("public/candles/" ++ symbolId)
    queryParams (configOverride this).

(** *** Trading *)

Definition listOpenOrders (this : HitBtcClient) (symbolId : JsVal) : Outcome :=
  getFromPrivateEndpoint (rawAgent this) "order"
    (JObj [("symbol", symbolId)]) (configOverride this).

Definition createNewOrder (this : HitBtcClient) (params : JsVal) : Outcome :=
  postToPrivateEndpoint (rawAgent this) "order" params (configOverride this).

Definition cancelAllOrders (this : HitBtcClient) (params : JsVal) : Outcome :=
  deleteFromPrivateEndpoint (rawAgent this) "order" params
    (configOverride this).

Definition getOrderByClientId (this : HitBtcClient) (clientOrderId : string)
  (params : JsVal) : Outcome :=
  postToPrivateEndpoint (rawAgent this) ("order/" ++ clientOrderId) params
    (configOverride this).

Definition createNewClientIdOrder (this : HitBtcClient)
  (clientOrderId : string) (params : JsVal) : Outcome :=
  putToPrivateEndpoint (rawAgent this) ("order/" ++ clientOrderId) params
    (configOverride this).

Definition cancelClientIdOrder (this : HitBtcClient) (clientOrderId : string)
  : Outcome :=
  deleteFromPrivateEndpoint (rawAgent this) ("order/" ++ clientOrderId) JNull
    (configOverride this).

Definition replaceOrder (this : HitBtcClient) (clientOrderId : string)
  : Outcome :=
  patchToPrivateEndpoint (rawAgent this) ("order/" ++ clientOrderId) JNull
    (configOverride this).

Definition getTradingBalances (this : HitBtcClient) : Outcome :=
  getFromPrivateEndpoint (rawAgent this) "trading/balance" JNull
    (configOverride this).

Definition getTradingFee (this : HitBtcClient) (symbolId : string) : Outcome :=
  getFromPrivateEndpoint (rawAgent this) ("trading/fee/" ++ symbolId) JNull
    (configOverride this).

(** *** Trading history *)

Definition getTrades (this : HitBtcClient) (params : JsVal) : Outcome :=
  getFromPrivateEndpoint (rawAgent this) "history/trades" params
    (configOverride this).

Definition getOrders (this : HitBtcClient) (params : JsVal) : Outcome :=
  getFromPrivateEndpoint (rawAgent this) "history/order" params
    (configOverride this).

Definition getTradesByOrderId (this : HitBtcClient) (orderId : Z) : Outcome :=
  getFromPrivateEndpoint (rawAgent this)
    ("history/order/" ++ Number_toString orderId ++ "/trades") JNull
    (configOverride this).

(** *** Account *)

Definition getMainAccountBalance (this : HitBtcClient) : Outcome :=
  getFromPrivateEndpoint (rawAgent this) "account/balance" JNull
    (configOverride this).

Definition getAccountTransactions (this : HitBtcClient) (params : JsVal)
  : Outcome :=
  getFromPrivateEndpoint (rawAgent this) "account/transactions" params
    (configOverride this).

Definition getAccountTransactionById (this : HitBtcClient)
  (transactionId : string) : Outcome :=
  getFromPrivateEndpoint (rawAgent this)
    ("account/transaction/" ++ transactionId) JNull (configOverride this).

Definition withdrawCrypto (this : HitBtcClient) (params : JsVal) : Outcome :=
  postToPrivateEndpoint (rawAgent this) "account/crypto/withdraw" params
    (configOverride this).

Definition commitCryptoWithdraw (this : HitBtcClient) (id : string) : Outcome :=
  putToPrivateEndpoint (rawAgent this) ("account/crypto/withdraw/" ++ id)
    JNull (configOverride this).

Definition rollbackCryptoWithdraw (this : HitBtcClient) (id : string)
  : Outcome :=
  deleteFromPrivateEndpoint (rawAgent this)
    ("account/crypto/withdraw/" ++ id) JNull (configOverride this).

Definition getCryptoDepositAddress (this : HitBtcClient) (currencyId : string)
  : Outcome :=
  getFromPrivateEndpoint (rawAgent this)
    ("account/crypto/address/" ++ currencyId) JNull (configOverride this).

Definition createCryptoDepositAddress (this : HitBtcClient)
  (currencyId : string) : Outcome :=
  postToPrivateEndpoint (rawAgent this)
    ("account/crypto/address/" ++ currencyId) JNull (configOverride this).

Definition transferToTrading (this : HitBtcClient) (params : JsVal) : Outcome :=
  postToPrivateEndpoint (rawAgent this) "account/transfer" params
    (configOverride this).

Definition callPublic (this : HitBtcClient) (c : PublicCall) : Outcome :=
  match c with
  | GetAvailableCurrencySymbols => getAvailableCurrencySymbols this
  | GetSymbolInfo symbolId => getSymbolInfo this symbolId
  | GetAvailableCurrencies => getAvailableCurrencies this
  | GetCurrencyInfo currencyId => getCurrencyInfo this currencyId
  | GetTicker => getTicker this
  | GetTickerInfo symbolId => getTickerInfo this symbolId
  | GetTradesInfo symbolId queryParams => getTradesInfo this symbolId queryParams
  | GetOrderBook symbolId queryParams => getOrderBook this symbolId queryParams
  | GetCandle symbolId queryParams => getCandle this symbolId queryParams
  end.

Definition callPrivate (this : HitBtcClient) (c : PrivateCall) : Outcome :=
  match c with
  | ListOpenOrders symbolId => listOpenOrders this symbolId
  | CreateNewOrder params => createNewOrder this params
  | CancelAllOrders params => cancelAllOrders this params
  | GetOrderByClientId clientOrderId params =>
      getOrderByClientId this clientOrderId params
  | CreateNewClientIdOrder clientOrderId params =>
      createNewClientIdOrder this clientOrderId params
  | CancelClientIdOrder clientOrderId => cancelClientIdOrder this clientOrderId
  | ReplaceOrder clientOrderId => replaceOrder this clientOrderId
  | GetTradingBalances => getTradingBalances this
  | GetTradingFee symbolId => getTradingFee this symbolId
  | GetTrades params => getTrades this params
  | GetOrders params => getOrders this params
  | GetTradesByOrderId orderId => getTradesByOrderId this orderId
  | GetMainAccountBalance => getMainAccountBalance this
  | GetAccountTransactions params => getAccountTransactions this params
  | GetAccountTransactionById transactionId =>
      getAccountTransactionById this transactionId
  | WithdrawCrypto params => withdrawCrypto this params
  | CommitCryptoWithdraw id => commitCryptoWithdraw this id
  | RollbackCryptoWithdraw id => rollbackCryptoWithdraw this id
  | GetCryptoDepositAddress currencyId => getCryptoDepositAddress this currencyId
  | CreateCryptoDepositAddress currencyId =>
      createCryptoDepositAddress this currencyId
  | TransferToTrading params => transferToTrading this params
  end.

End Requests.

End Hmac.

(* ===================================================================== *)
(** ** Requests as the specification describes them *)
(* ===================================================================== *)

(** The headers every request carries when the caller overrides none. *)
Definition defaultHeaders : JsVal :=
  JObj [ ("Content-Type", JStr "application/json");
         ("User-Agent",
           JStr "HitBTC API Client (hitbtc-cryptoexchange-api node package)") ].

(** A request configuration against the fixed base URL with the default
    headers and timeout, the given verb and the given further properties. *)
Definition requestConfig (method : string) (more : Fields) : JsVal :=
  JObj ([ ("baseURL", JStr rootUrl); ("headers", defaultHeaders);
          ("method", JStr method); ("timeout", JNum timeout) ] ++ more)%list.

(** The public endpoint templates of the interface list of the
    specification (section 6), by operation, with the path parameter
    interpolated. *)
Definition documentedPath (c : PublicCall) : string :=
  match c with
  | GetAvailableCurrencySymbols => "public/symbol"
  | GetSymbolInfo symbolId => "public/symbol/" ++ symbolId
  | GetAvailableCurrencies => "public/currency"
  | GetCurrencyInfo currencyId => "public/currency/" ++ currencyId
  | GetTicker => "public/ticker"
  | GetTickerInfo symbolId => "public/ticker/" ++ symbolId
  | GetTradesInfo symbolId _ => "public/trades/" ++ symbolId
  | GetOrderBook symbolId _ => "public/orderbook/" ++ symbolId
  | GetCandle symbolId _ => "public/candles/" ++ symbolId
  end.

(** The parameters the caller supplies to a public operation. *)
Definition callerParams (c : PublicCall) : JsVal :=
  match c with
  | GetTradesInfo _ queryParams
  | GetOrderBook _ queryParams
  | GetCandle _ queryParams => queryParams
  | _ => JNull
  end.

(** The request the specification documents for a public operation: a GET
    of the template, relative to the base URL, with the caller's parameters
    as its query string. *)
Definition documentedRequest (c : PublicCall) : JsVal :=
  requestConfig "GET"
    [("url", JStr ("/" ++ documentedPath c ++ "?" ++ Qs.stringify (callerParams c)))].

Definition isCurrencyInfo (c : PublicCall) : bool :=
  match c with
  | GetCurrencyInfo _ => true
  | _ => false
  end.

(** The HTTP Basic Auth a request carries for a credential pair. *)
Definition httpBasicAuth (a : BasicAuth.IApiAuth) : JsVal :=
  JObj [ ("password", JStr (BasicAuth.privateKey a));
         ("username", JStr (BasicAuth.publicKey a)) ].

(** An error of the transport that carries no [response]: the request timed
    out before any answer. *)
Definition timeoutError : JsVal :=
  JObj [ ("message", JStr "timeout of 3000ms exceeded");
         ("code", JStr "ECONNABORTED") ].

(** Reading the printed timestamp back: its digits, and the value of the
    decimals [fraction] prints. *)
Definition isDigit (c : ascii) : bool :=
  let n := nat_of_ascii c in ((48 <=? n) && (n <=? 57))%nat.

Fixpoint allDigits (s : string) : bool :=
  match s with
  | EmptyString => true
  | String c rest => isDigit c && allDigits rest
  end.

Definition noLeadingDigit (s : string) : bool :=
  match s with
  | EmptyString => true
  | String c _ => negb (isDigit c)
  end.

Definition digitValue (c : ascii) : Z := Z.of_nat (nat_of_ascii c - 48).

Definition readFraction (s : string) : Z :=
  match s with
  | String _ (String a EmptyString) => 100 * digitValue a
  | String _ (String a (String b EmptyString)) =>
      100 * digitValue a + 10 * digitValue b
  | String _ (String a (String b (String c _))) =>
      100 * digitValue a + 10 * digitValue b + digitValue c
  | _ => 0
  end.

(** *** Reading requests *)

(** An object of the program has each property name once. *)
Fixpoint uniqueKeys (fs : Fields) : bool :=
  match fs with
  | [] => true
  | (k, _) :: rest =>
      match lookup k rest with
      | Some _ => false
      | None => uniqueKeys rest
      end
  end.

(** [o.k] for an object [o]: [undefined] when [o] has no such property. *)
Definition field (o : JsVal) (k : string) : JsVal :=
  match o with
  | JObj fs => match lookup k fs with Some x => x | None => JUndefined end
  | _ => JUndefined
  end.

(** [v === undefined || v === null]: the values a property read throws on. *)
Definition nullish (v : JsVal) : bool :=
  match v with
  | JUndefined | JNull => true
  | _ => false
  end.

(** The outcome sent exactly one request, and that request satisfies [P]. *)
Definition sentOne (o : Outcome) (P : JsVal -> Prop) : Prop :=
  match issued o with
  | [request] => P request
  | _ => False
  end.

(** Property [k] of [request] is the one the override [fs] gives it, and
    without one the one of [base]. *)
Definition overrides (fs : Fields) (base : JsVal) (k : string) (request : JsVal)
  : Prop :=
  field request k
  = match lookup k fs with
    | Some v => v
    | None => field base k
    end.

Definition isCreateCryptoDepositAddress (c : PrivateCall) : bool :=
  match c with
  | CreateCryptoDepositAddress _ => true
  | _ => false
  end.

(** Any operation of either facade, on any client. *)
Inductive AnyCall : Type :=
| BasicPublic (client : BasicAuth.HitBtcClient) (call : PublicCall)
| BasicPrivate (client : BasicAuth.HitBtcClient) (call : PrivateCall)
| HmacPublic (client : Hmac.HitBtcClient) (call : PublicCall)
| HmacPrivate (client : Hmac.HitBtcClient) (call : PrivateCall).

Definition run (axios : JsVal -> Completion JsVal) (x : AnyCall) : Outcome :=
  match x with
  | BasicPublic client call => BasicAuth.callPublic axios client call
  | BasicPrivate client call => BasicAuth.callPrivate axios client call
  | HmacPublic client call => Hmac.callPublic axios client call
  | HmacPrivate client call => Hmac.callPrivate axios client call
  end.

(* ===================================================================== *)
(** ** Basic facts *)
(* ===================================================================== *)

Lemma append_empty_r (s : string) : s ++ EmptyString = s.
Proof. induction s as [|c s IH]; simpl; [reflexivity | now rewrite IH]. Qed.

(** The seconds of a clock reading, times a thousand, are the reading. *)
Lemma Qfloor_seconds (now : Z) :
  Qfloor (inject_Z now / 1000 * 1000)%Q = now.
Proof.
  rewrite <- (Qfloor_Z now) at 2. apply Qfloor_comp.
  unfold Qeq, Qdiv, Qmult, Qinv. simpl. lia.
Qed.

Lemma secondsToString_clock (now : Z) :
  Hmac.secondsToString (inject_Z now / 1000)%Q = Hmac.thousandths now.
Proof. unfold Hmac.secondsToString. now rewrite Qfloor_seconds. Qed.

(** Building the headers never throws: [config.headers] is only read from a
    truthy [config]. *)
Lemma privateHeaders_defined (config : JsVal) :
  exists headers, privateHeaders config = Normal headers.
Proof.
  unfold privateHeaders.
  destruct config as [| |b|n|s|fs]; simpl;
    try (eexists; reflexivity).
  - destruct b; eexists; reflexivity.
  - destruct (negb (n =? 0)%Z); eexists; reflexivity.
  - destruct (negb (s =? EmptyString)); eexists; reflexivity.
Qed.

(** A private request of the Basic Auth variant on an agent built without
    credentials and upgraded later: reading [auth.privateKey] throws. *)
Lemma privateRequest_after_upgrade
  (axios : JsVal -> Completion JsVal) (newAuth : BasicAuth.IApiAuth)
  (endpoint method : string) (dataParams config : JsVal) :
  BasicAuth.privateRequest axios
    (BasicAuth.upgrade (BasicAuth.getRawAgent JUndefined)
       (BasicAuth.authObject newAuth))
    endpoint method dataParams config
  = rejectUnsent (cannotRead "privateKey" JUndefined).
Proof.
  unfold BasicAuth.privateRequest. simpl.
  destruct (privateHeaders_defined config) as [h ->]. reflexivity.
Qed.

(* ===================================================================== *)
(** ** Private operations without credentials *)
(* ===================================================================== *)

(** C1.  On a client built without credentials and never upgraded, every
    private operation, in the Basic Auth variant and in the HMAC variant
    alike, rejects with the message [api keys are required to access private
    endpoints] and hands no request to the HTTP transport. *)
Theorem private_calls_need_keys
  (axios : JsVal -> Completion JsVal) (configOverride : JsVal)
  (call : PrivateCall) :
  BasicAuth.callPrivate axios (BasicAuth.getClient JUndefined configOverride) call
  = {| settled := Throw (JStr "api keys are required to access private endpoints");
       issued := [] |}
  /\
  Hmac.callPrivate axios (Hmac.getClient JUndefined configOverride) call
  = {| settled := Throw (JStr "api keys are required to access private endpoints");
       issued := [] |}.
Proof. split; destruct call; reflexivity. Qed.

(* ===================================================================== *)
(** ** Error unwrapping *)
(* ===================================================================== *)

(** When the three property reads succeed, the rejection reason is the first
    truthy one of [err.response.data.error], [err.response.data],
    [err.response], [err]. *)
Lemma rejectionReason_most_specific (err response data error : JsVal) :
  get err "response" = Normal response ->
  get response "data" = Normal data ->
  get data "error" = Normal error ->
  rejectionReason err
  = Normal (if truthy error then error
            else if truthy data then data
            else if truthy response then response else err).
Proof.
  intros Hr Hd He. unfold rejectionReason.
  rewrite Hr. simpl. rewrite Hd. simpl. rewrite He. simpl.
  destruct (truthy error); [reflexivity|].
  destruct (truthy data); [reflexivity|].
  destruct (truthy response); reflexivity.
Qed.

Lemma rejectionReason_most_specific_witness :
  rejectionReason
    (JObj [("response", JObj [("data", JObj [("error", JStr "X")])])])
  = Normal (JStr "X").
Proof.
  exact (rejectionReason_most_specific
           (JObj [("response", JObj [("data", JObj [("error", JStr "X")])])])
           (JObj [("data", JObj [("error", JStr "X")])])
           (JObj [("error", JStr "X")])
           (JStr "X") eq_refl eq_refl eq_refl).
Defined.

(** Whenever the rejection reason is computed at all, [err.response] is an
    object and the reason is one of the first three alternatives: the last
    one, the raw error, is never taken. *)
Lemma rejectionReason_never_raw (err reason : JsVal) :
  rejectionReason err = Normal reason ->
  exists response data error,
    get err "response" = Normal response
    /\ get response "data" = Normal data
    /\ get data "error" = Normal error
    /\ truthy response = true
    /\ reason = (if truthy error then error
                 else if truthy data then data else response).
Proof.
  unfold rejectionReason.
  destruct (get err "response") as [response|e] eqn:Hr; simpl; [|discriminate].
  destruct (get response "data") as [data|e] eqn:Hd; simpl; [|discriminate].
  destruct (get data "error") as [error|e] eqn:He; simpl; [|discriminate].
  assert (Ht : truthy response = true).
  { destruct response; simpl in Hd; try discriminate Hd;
      try (injection Hd as <-; discriminate He). reflexivity. }
  intros H. exists response, data, error. repeat split; trivial.
  destruct (truthy error); [now injection H|].
  destruct (truthy data); [now injection H|].
  rewrite Ht in H. now injection H.
Qed.

Lemma rejectionReason_never_raw_witness :
  exists response data error,
    get (JObj [("response", JObj [("status", JNum 502); ("data", JStr "")])])
      "response" = Normal response
    /\ get response "data" = Normal data
    /\ get data "error" = Normal error
    /\ truthy response = true
    /\ JObj [("status", JNum 502); ("data", JStr "")]
       = (if truthy error then error
          else if truthy data then data else response).
Proof.
  exact (rejectionReason_never_raw
           (JObj [("response", JObj [("status", JNum 502); ("data", JStr "")])])
           (JObj [("status", JNum 502); ("data", JStr "")])
           eq_refl).
Defined.

(** C2.  When the transport throws an error that has no [response] (here a
    timeout), reading [err.response.data] throws: every public operation,
    and every private operation of a client built with credentials, rejects
    with that TypeError and not with the error the transport threw. *)
Theorem error_without_response_rejects_with_TypeError
  (configOverride : JsVal) (pub : PublicCall) (priv : PrivateCall)
  (a : BasicAuth.IApiAuth) (h : Hmac.IApiAuth) :
  let axios := fun _ : JsVal => Throw timeoutError in
  let raised := TypeError "Cannot read property 'data' of undefined" in
  settled (BasicAuth.callPublic axios
             (BasicAuth.getClient JUndefined configOverride) pub)
  = Throw raised
  /\ settled (BasicAuth.callPrivate axios
                (BasicAuth.getClient (BasicAuth.authObject a) JNull) priv)
     = Throw raised
  /\ settled (Hmac.callPublic axios
                (Hmac.getClient JUndefined configOverride) pub)
     = Throw raised
  /\ settled (Hmac.callPrivate axios
                (Hmac.getClient (Hmac.authObject h) JNull) priv)
     = Throw raised
  /\ raised <> timeoutError.
Proof.
  cbv zeta. repeat split.
  - destruct pub; reflexivity.
  - destruct priv; reflexivity.
  - destruct pub; reflexivity.
  - destruct priv; reflexivity.
  - discriminate.
Qed.

(* ===================================================================== *)
(** ** Credentials and the requests they reach *)
(* ===================================================================== *)

(** C3.  In the Basic Auth variant the requests read the parameter [auth] of
    [getRawAgent], not [this.auth].  So on a client built without
    credentials and upgraded with [newAuth], every private operation rejects
    with a TypeError and sends nothing; and a client built with [old] and
    upgraded with [newAuth] still sends the Basic Auth of [old]. *)
Theorem upgrade_does_not_reach_privateRequest
  (axios : JsVal -> Completion JsVal) (configOverride : JsVal)
  (old newAuth : BasicAuth.IApiAuth) (call : PrivateCall) :
  BasicAuth.callPrivate axios
    (BasicAuth.clientUpgrade (BasicAuth.getClient JUndefined configOverride)
       (BasicAuth.authObject newAuth))
    call
  = {| settled :=
         Throw (TypeError "Cannot read property 'privateKey' of undefined");
       issued := [] |}
  /\
  issued (BasicAuth.getTradingBalances axios
            (BasicAuth.clientUpgrade
               (BasicAuth.getClient (BasicAuth.authObject old) JNull)
               (BasicAuth.authObject newAuth)))
  = [ requestConfig "GET"
        [ ("auth", httpBasicAuth old);
          ("url", JStr "/trading/balance/");
          ("data", JNull) ] ].
Proof.
  split.
  - destruct call; cbn [BasicAuth.callPrivate];
      apply privateRequest_after_upgrade.
  - reflexivity.
Qed.

(** C4.  In the HMAC variant the stored credentials only pass the guard:
    two clients that differ in their credentials alone behave the same on
    every private operation, and the request of a credentialed client (here
    for the trading balances) has the default headers and no [auth]. *)
Theorem hmac_requests_carry_no_credentials
  (axios : JsVal -> Completion JsVal) (configOverride : JsVal)
  (a b : Hmac.IApiAuth) (call : PrivateCall) :
  Hmac.callPrivate axios (Hmac.getClient (Hmac.authObject a) configOverride) call
  = Hmac.callPrivate axios (Hmac.getClient (Hmac.authObject b) configOverride) call
  /\
  issued (Hmac.getTradingBalances axios
            (Hmac.getClient (Hmac.authObject a) JNull))
  = [ requestConfig "GET" [("url", JStr "/trading/balance?")] ].
Proof. split; [destruct call; reflexivity | reflexivity]. Qed.

(** C5.  In the Basic Auth variant a GET of a credentialed agent sends no
    body and appends the encoded parameters to the path after a slash, not
    as a query string after a question mark: listing the open orders of
    ETHBTC asks for [/order/symbol=ETHBTC]. *)
Theorem basic_get_puts_params_in_path
  (axios : JsVal -> Completion JsVal) (a : BasicAuth.IApiAuth)
  (endpoint : string) (dataParams : JsVal) :
  issued (BasicAuth.privateRequest axios
            (BasicAuth.getRawAgent (BasicAuth.authObject a))
            endpoint "GET" dataParams JNull)
  = [ requestConfig "GET"
        [ ("auth", httpBasicAuth a);
          ("url", JStr ("/" ++ endpoint ++ "/" ++ Qs.stringify dataParams));
          ("data", JNull) ] ]
  /\
  issued (BasicAuth.listOpenOrders axios
            (BasicAuth.getClient (BasicAuth.authObject a) JNull)
            (JStr "ETHBTC"))
  = [ requestConfig "GET"
        [ ("auth", httpBasicAuth a);
          ("url", JStr "/order/symbol=ETHBTC");
          ("data", JNull) ] ]
  /\ "/order/symbol=ETHBTC" <> "/order?symbol=ETHBTC".
Proof. repeat split. discriminate. Qed.

(** In the Basic Auth variant every verb other than GET asks for the bare
    endpoint and sends the parameters as the request body. *)
Lemma basic_other_verbs_send_body
  (axios : JsVal -> Completion JsVal) (a : BasicAuth.IApiAuth)
  (endpoint method : string) (dataParams : JsVal) :
  (method =? "GET") = false ->
  issued (BasicAuth.privateRequest axios
            (BasicAuth.getRawAgent (BasicAuth.authObject a))
            endpoint method dataParams JNull)
  = [ requestConfig method
        [ ("auth", httpBasicAuth a);
          ("url", JStr ("/" ++ endpoint));
          ("data", dataParams) ] ].
Proof.
  intros Hm. unfold BasicAuth.privateRequest. simpl. rewrite Hm. reflexivity.
Qed.

Lemma basic_other_verbs_send_body_witness :
  issued (BasicAuth.createNewOrder (fun _ => Normal JNull)
            (BasicAuth.getClient
               (BasicAuth.authObject
                  {| BasicAuth.publicKey := "pk"; BasicAuth.privateKey := "sk" |})
               JNull)
            (JObj [ ("symbol", JStr "ETHBTC"); ("side", JStr "buy");
                    ("quantity", JStr "0.1") ]))
  = [ requestConfig "POST"
        [ ("auth", JObj [("password", JStr "sk"); ("username", JStr "pk")]);
          ("url", JStr "/order");
          ("data", JObj [ ("symbol", JStr "ETHBTC"); ("side", JStr "buy");
                          ("quantity", JStr "0.1") ]) ] ].
Proof.
  exact (basic_other_verbs_send_body (fun _ => Normal JNull)
           {| BasicAuth.publicKey := "pk"; BasicAuth.privateKey := "sk" |}
           "order" "POST"
           (JObj [ ("symbol", JStr "ETHBTC"); ("side", JStr "buy");
                   ("quantity", JStr "0.1") ])
           eq_refl).
Defined.

(** C6.  [signMessage] follows the signing rule of the specification: the
    digest is the base64 text of the HMAC-SHA256, keyed by the base64
    decoding of the private key, of the timestamp followed by the
    upper-cased method, the path and, when a body is present, its JSON
    text; the timestamp is the clock reading in seconds, exactly (a
    thousand times it is the reading in milliseconds), and it is that
    fractional value which is printed into the digest input. *)
Theorem signMessage_follows_signing_rule
  (fromBase64 : string -> Hmac.Buffer)
  (hmacSha256 : Hmac.Buffer -> string -> Hmac.Buffer)
  (toBase64 : Hmac.Buffer -> string)
  (now : Z) (privateKey path method : string) (body : option Fields) :
  let signature :=
    Hmac.signMessage fromBase64 hmacSha256 toBase64 now privateKey path method
      (Hmac.bodyArg body) in
  signature
  = Hmac.specSign fromBase64 hmacSha256 toBase64 now privateKey path method body
  /\ Hmac.digest signature
     = toBase64 (hmacSha256 (fromBase64 privateKey)
                   (Hmac.thousandths now ++ Hmac.toUpperCase method ++ path
                    ++ match body with
                       | Some fs => JSON.stringify (JObj fs)
                       | None => EmptyString
                       end))
  /\ (Hmac.timestamp signature * 1000 == inject_Z now)%Q.
Proof.
  cbv zeta.
  assert (Hsign :
    Hmac.signMessage fromBase64 hmacSha256 toBase64 now privateKey path method
      (Hmac.bodyArg body)
    = Hmac.specSign fromBase64 hmacSha256 toBase64 now privateKey path method
        body).
  { unfold Hmac.signMessage, Hmac.specSign, Hmac.specPrehash.
    destruct body as [fs|]; simpl; [reflexivity|].
    now rewrite append_empty_r. }
  split; [exact Hsign|]. split.
  - rewrite Hsign. unfold Hmac.specSign, Hmac.specPrehash.
    cbn [Hmac.digest]. now rewrite secondsToString_clock.
  - unfold Qeq, Qdiv, Qmult, Qinv. simpl. lia.
Qed.

(* ===================================================================== *)
(** ** The public operations *)
(* ===================================================================== *)

(** Every public operation but [getCurrencyInfo], on a client without a
    configuration override, sends exactly the documented request. *)
Lemma public_calls_follow_templates
  (axios : JsVal -> Completion JsVal) (auth : JsVal) (c : PublicCall) :
  isCurrencyInfo c = false ->
  issued (BasicAuth.callPublic axios (BasicAuth.getClient auth JNull) c)
  = [documentedRequest c]
  /\ issued (Hmac.callPublic axios (Hmac.getClient auth JNull) c)
     = [documentedRequest c].
Proof. destruct c; intros H; try discriminate H; split; reflexivity. Qed.

Lemma public_calls_follow_templates_witness :
  issued (BasicAuth.callPublic (fun _ => Normal JNull)
            (BasicAuth.getClient JUndefined JNull)
            (GetOrderBook "ETHBTC" (JObj [("limit", JNum 5)])))
  = [ requestConfig "GET" [("url", JStr "/public/orderbook/ETHBTC?limit=5")] ]
  /\ issued (Hmac.callPublic (fun _ => Normal JNull)
               (Hmac.getClient JUndefined JNull)
               (GetOrderBook "ETHBTC" (JObj [("limit", JNum 5)])))
     = [ requestConfig "GET" [("url", JStr "/public/orderbook/ETHBTC?limit=5")] ].
Proof.
  exact (public_calls_follow_templates (fun _ => Normal JNull) JUndefined
           (GetOrderBook "ETHBTC" (JObj [("limit", JNum 5)])) eq_refl).
Defined.

(** C7.  [getCurrencyInfo] asks for the symbol endpoint, as [getSymbolInfo]
    does, in both variants; the documented request for it is a GET of
    [public/currency/] followed by the currency. *)
Theorem getCurrencyInfo_asks_symbol_endpoint
  (axios : JsVal -> Completion JsVal) (auth : JsVal) (currencyId : string) :
  issued (BasicAuth.callPublic axios (BasicAuth.getClient auth JNull)
            (GetCurrencyInfo currencyId))
  = [ requestConfig "GET" [("url", JStr ("/public/symbol/" ++ currencyId ++ "?"))] ]
  /\ issued (Hmac.callPublic axios (Hmac.getClient auth JNull)
               (GetCurrencyInfo currencyId))
     = [ requestConfig "GET" [("url", JStr ("/public/symbol/" ++ currencyId ++ "?"))] ]
  /\ BasicAuth.getCurrencyInfo axios (BasicAuth.getClient auth JNull) currencyId
     = BasicAuth.getSymbolInfo axios (BasicAuth.getClient auth JNull) currencyId
  /\ documentedRequest (GetCurrencyInfo currencyId)
     = requestConfig "GET" [("url", JStr ("/public/currency/" ++ currencyId ++ "?"))]
  /\ requestConfig "GET" [("url", JStr ("/public/symbol/" ++ currencyId ++ "?"))]
     <> documentedRequest (GetCurrencyInfo currencyId).
Proof. repeat split. discriminate. Qed.

(* ===================================================================== *)
(** ** The credential state *)
(* ===================================================================== *)

(** C8.  [isUpgraded] returns [this.auth] itself: [undefined] on a client
    built without credentials, and after [upgrade(a)] the object [a], in
    both variants; neither is a boolean. *)
Theorem isUpgraded_returns_the_credentials
  (configOverride : JsVal)
  (basic : BasicAuth.HitBtcClient) (a : BasicAuth.IApiAuth)
  (hmac : Hmac.HitBtcClient) (h : Hmac.IApiAuth) :
  BasicAuth.clientIsUpgraded (BasicAuth.getClient JUndefined configOverride)
  = JUndefined
  /\ BasicAuth.clientIsUpgraded
       (BasicAuth.clientUpgrade basic (BasicAuth.authObject a))
     = BasicAuth.authObject a
  /\ Hmac.clientIsUpgraded (Hmac.getClient JUndefined configOverride)
     = JUndefined
  /\ Hmac.clientIsUpgraded (Hmac.clientUpgrade hmac (Hmac.authObject h))
     = Hmac.authObject h
  /\ JUndefined <> JBool false
  /\ BasicAuth.authObject a <> JBool true
  /\ Hmac.authObject h <> JBool true.
Proof. repeat split; discriminate. Qed.

(** What [isUpgraded] returns is truthy after an upgrade with a credential
    pair and falsy on a client built without credentials, so the guard of
    the private requests tells the two apart. *)
Lemma isUpgraded_truthiness
  (configOverride : JsVal)
  (basic : BasicAuth.HitBtcClient) (a : BasicAuth.IApiAuth)
  (hmac : Hmac.HitBtcClient) (h : Hmac.IApiAuth) :
  truthy (BasicAuth.clientIsUpgraded
            (BasicAuth.clientUpgrade basic (BasicAuth.authObject a))) = true
  /\ truthy (BasicAuth.clientIsUpgraded
               (BasicAuth.getClient JUndefined configOverride)) = false
  /\ truthy (Hmac.clientIsUpgraded
               (Hmac.clientUpgrade hmac (Hmac.authObject h))) = true
  /\ truthy (Hmac.clientIsUpgraded
               (Hmac.getClient JUndefined configOverride)) = false.
Proof. repeat split. Qed.

(* ===================================================================== *)
(** ** Deposit addresses *)
(* ===================================================================== *)

(** C10.  In the Basic Auth variant [createCryptoDepositAddress] and
    [getCryptoDepositAddress] are the same call, on every client, with
    every transport: a GET for [account/crypto/address/] followed by the
    currency, without a body.  In the HMAC variant
    [createCryptoDepositAddress] sends a POST and [getCryptoDepositAddress]
    a GET. *)
Theorem deposit_address_calls
  (axios : JsVal -> Completion JsVal) (client : BasicAuth.HitBtcClient)
  (a : BasicAuth.IApiAuth) (h : Hmac.IApiAuth) (currencyId : string) :
  BasicAuth.createCryptoDepositAddress axios client currencyId
  = BasicAuth.getCryptoDepositAddress axios client currencyId
  /\ BasicAuth.createCryptoDepositAddress axios client currencyId
     = BasicAuth.privateRequest axios (BasicAuth.rawAgent client)
         ("account/crypto/address/" ++ currencyId) "GET" JNull
         (BasicAuth.configOverride client)
  /\ issued (BasicAuth.createCryptoDepositAddress axios
               (BasicAuth.getClient (BasicAuth.authObject a) JNull) currencyId)
     = [ requestConfig "GET"
           [ ("auth", httpBasicAuth a);
             ("url", JStr ("/account/crypto/address/" ++ currencyId ++ "/"));
             ("data", JNull) ] ]
  /\ issued (Hmac.createCryptoDepositAddress axios
               (Hmac.getClient (Hmac.authObject h) JNull) currencyId)
     = [ requestConfig "POST"
           [ ("url", JStr ("/account/crypto/address/" ++ currencyId));
             ("data", JNull) ] ]
  /\ issued (Hmac.getCryptoDepositAddress axios
               (Hmac.getClient (Hmac.authObject h) JNull) currencyId)
     = [ requestConfig "GET"
           [ ("url", JStr ("/account/crypto/address/" ++ currencyId ++ "?")) ] ].
Proof. repeat split. Qed.

(* ===================================================================== *)
(** ** The clock and the signature *)
(* ===================================================================== *)

Lemma length_append (s t : string) :
  String.length (s ++ t) = (String.length s + String.length t)%nat.
Proof. induction s as [|c s IH]; simpl; [reflexivity | now rewrite IH]. Qed.

Lemma append_cancel_r (s1 s2 r : string) : s1 ++ r = s2 ++ r -> s1 = s2.
Proof.
  revert s2. induction s1 as [|c s1 IH]; intros [|d s2] E; simpl in E.
  - reflexivity.
  - apply (f_equal String.length) in E. simpl in E.
    rewrite length_append in E. lia.
  - apply (f_equal String.length) in E. simpl in E.
    rewrite length_append in E. lia.
  - injection E as -> E. now rewrite (IH s2 E).
Qed.

(** A run of digits followed by something that does not start with a digit
    splits in one way only. *)
Lemma split_digits (s1 s2 t1 t2 : string) :
  allDigits s1 = true -> allDigits s2 = true ->
  noLeadingDigit t1 = true -> noLeadingDigit t2 = true ->
  s1 ++ t1 = s2 ++ t2 -> s1 = s2 /\ t1 = t2.
Proof.
  revert s2.
  induction s1 as [|c s1 IH]; intros [|d s2] D1 D2 N1 N2 E; simpl in *.
  - auto.
  - subst t1. simpl in N1. apply andb_prop in D2 as [Hd _].
    rewrite Hd in N1. discriminate.
  - subst t2. simpl in N2. apply andb_prop in D1 as [Hc _].
    rewrite Hc in N2. discriminate.
  - injection E as -> E. apply andb_prop in D1 as [_ D1].
    apply andb_prop in D2 as [_ D2].
    destruct (IH s2 D1 D2 N1 N2 E) as [-> ->]. auto.
Qed.

Lemma allDigits_uint (d : Decimal.uint) :
  allDigits (NilEmpty.string_of_uint d) = true.
Proof. induction d; simpl; auto. Qed.

Lemma allDigits_Number_toString (n : Z) :
  (0 <= n)%Z -> allDigits (Number_toString n) = true.
Proof.
  intros Hn. unfold Number_toString. destruct n as [|p|p]; try lia.
  - reflexivity.
  - simpl. unfold NilZero.string_of_uint.
    destruct (Pos.to_uint p) eqn:E; try apply allDigits_uint.
    reflexivity.
Qed.

Lemma Number_toString_inj (a b : Z) :
  Number_toString a = Number_toString b -> a = b.
Proof.
  unfold Number_toString. intros E.
  apply DecimalZ.to_int_inj.
  assert (H : forall z,
             NilZero.int_of_string (NilZero.string_of_int (Z.to_int z))
             = Some (Z.to_int z)).
  { intros z. apply NilZero.isi.
    - destruct z; simpl; try discriminate.
      intros [= H]. revert H. apply Unsigned.to_uint_nonnil.
    - destruct z; simpl; try discriminate.
      intros [= H]. revert H. apply Unsigned.to_uint_nonnil. }
  pose proof (H a) as Ha. rewrite E, H in Ha. now injection Ha.
Qed.

Lemma readFraction_fraction (f : Z) :
  (0 <= f < 1000)%Z -> readFraction (Hmac.fraction f) = f.
Proof.
  intros Hf.
  assert (H : forallb
                (fun n => (readFraction (Hmac.fraction (Z.of_nat n))
                           =? Z.of_nat n)%Z)
                (seq 0 1000) = true) by (vm_compute; reflexivity).
  rewrite forallb_forall in H.
  specialize (H (Z.to_nat f)). rewrite Z2Nat.id in H by lia.
  apply Z.eqb_eq, H, in_seq. lia.
Qed.

Lemma noLeadingDigit_fraction (f : Z) :
  noLeadingDigit (Hmac.fraction f) = true.
Proof. unfold Hmac.fraction. destruct (f =? 0)%Z; reflexivity. Qed.

(** The printed timestamp determines the clock reading. *)
Lemma thousandths_inj (a b : Z) :
  (0 <= a)%Z -> (0 <= b)%Z ->
  Hmac.thousandths a = Hmac.thousandths b -> a = b.
Proof.
  intros Ha Hb. unfold Hmac.thousandths.
  rewrite !Z.abs_eq by lia.
  destruct (Z.ltb_spec a 0); [lia|]. destruct (Z.ltb_spec b 0); [lia|].
  simpl. intros E.
  apply split_digits in E as [Ew Ef];
    try (apply allDigits_Number_toString; apply Z.div_pos; lia);
    try apply noLeadingDigit_fraction.
  apply Number_toString_inj in Ew.
  apply (f_equal readFraction) in Ef.
  rewrite !readFraction_fraction in Ef by (apply Z.mod_pos_bound; lia).
  rewrite (Z.div_mod a 1000), (Z.div_mod b 1000) by lia. lia.
Qed.

(** With the same clock reading two evaluations of [signMessage] on the same
    arguments give the same digest and the same timestamp. *)
Lemma signMessage_same_clock
  (fromBase64 : string -> Hmac.Buffer)
  (hmacSha256 : Hmac.Buffer -> string -> Hmac.Buffer)
  (toBase64 : Hmac.Buffer -> string)
  (now now' : Z) (privateKey path method : string) (body : JsVal) :
  now = now' ->
  Hmac.signMessage fromBase64 hmacSha256 toBase64 now privateKey path method body
  = Hmac.signMessage fromBase64 hmacSha256 toBase64 now' privateKey path method
      body.
Proof. intros ->. reflexivity. Qed.

(** Two evaluations of [signMessage] on the same arguments at different
    clock readings hash different inputs: their digests are equal only if
    the HMAC, printed in base64, gives the same text for two different
    messages under that key. *)
Lemma equal_digests_need_a_collision
  (fromBase64 : string -> Hmac.Buffer)
  (hmacSha256 : Hmac.Buffer -> string -> Hmac.Buffer)
  (toBase64 : Hmac.Buffer -> string)
  (now now' : Z) (privateKey path method : string) (body : JsVal) :
  (0 <= now)%Z -> (0 <= now')%Z -> now <> now' ->
  Hmac.digest
    (Hmac.signMessage fromBase64 hmacSha256 toBase64 now privateKey path method
       body)
  = Hmac.digest
      (Hmac.signMessage fromBase64 hmacSha256 toBase64 now' privateKey path
         method body) ->
  exists m m' : string,
    m <> m'
    /\ toBase64 (hmacSha256 (fromBase64 privateKey) m)
       = toBase64 (hmacSha256 (fromBase64 privateKey) m').
Proof.
  intros Hn Hn' Hne E. unfold Hmac.signMessage in E. simpl in E.
  rewrite !secondsToString_clock in E.
  set (rest := if truthy body
               then Hmac.toUpperCase method ++ path ++ JSON.stringify body
               else Hmac.toUpperCase method ++ path).
  exists (Hmac.thousandths now ++ rest), (Hmac.thousandths now' ++ rest).
  split.
  - intros Heq. apply append_cancel_r, thousandths_inj in Heq; auto.
  - subst rest. destruct (truthy body); exact E.
Qed.

Lemma equal_digests_need_a_collision_witness :
  exists m m' : string, m <> m' /\ "digest" = "digest".
Proof.
  apply (equal_digests_need_a_collision
           (fun _ => nil) (fun _ _ => nil) (fun _ => "digest")
           0%Z 1000%Z "c2s=" "/order" "POST" (JObj [("a", JNum 1)])).
  - lia.
  - lia.
  - discriminate.
  - reflexivity.
Defined.

(** The digest inputs of two signatures one second apart. *)
Example prehash_one_second_apart :
  Hmac.specPrehash (inject_Z 1514764800123 / 1000)%Q "/order" "post" None
  = "1514764800.123POST/order"
  /\ Hmac.specPrehash (inject_Z 1514764801123 / 1000)%Q "/order" "post" None
     = "1514764801.123POST/order".
Proof. split; vm_compute; reflexivity. Qed.

(* ===================================================================== *)
(** ** Object literals and the configuration override *)
(* ===================================================================== *)

Lemma lookup_set_prop (k k' : string) (v : JsVal) (fs : Fields) :
  lookup k (set_prop k' v fs) = if k' =? k then Some v else lookup k fs.
Proof.
  induction fs as [|[k0 v0] fs IH]; simpl; [reflexivity|].
  destruct (k0 =? k') eqn:E0; simpl.
  - apply String.eqb_eq in E0. subst k0. destruct (k' =? k); reflexivity.
  - destruct (k0 =? k) eqn:E1; [|exact IH].
    apply String.eqb_eq in E1. subst k0.
    rewrite String.eqb_sym, E0. reflexivity.
Qed.

(** After [{ ...acc, ...src }] a property of [src] has the value [src]
    gives it, and any other property the value it had in [acc]. *)
Lemma lookup_fold_set (fs acc : Fields) (k : string) :
  uniqueKeys fs = true ->
  lookup k (fold_left (fun o kv => set_prop (fst kv) (snd kv) o) fs acc)
  = match lookup k fs with
    | Some v => Some v
    | None => lookup k acc
    end.
Proof.
  revert acc.
  induction fs as [|[k0 v0] fs IH]; intros acc U; simpl in *; [reflexivity|].
  destruct (lookup k0 fs) eqn:L0; [discriminate|].
  rewrite (IH _ U), lookup_set_prop.
  destruct (k0 =? k) eqn:E; [|reflexivity].
  apply String.eqb_eq in E. subst k0. now rewrite L0.
Qed.

Lemma lookup_spread (fs acc : Fields) (k : string) :
  uniqueKeys fs = true ->
  lookup k (spread (JObj fs) acc)
  = match lookup k fs with
    | Some v => Some v
    | None => lookup k acc
    end.
Proof. apply lookup_fold_set. Qed.

Lemma field_spread (fs acc : Fields) (k : string) :
  uniqueKeys fs = true ->
  field (JObj (spread (JObj fs) acc)) k
  = match lookup k fs with
    | Some v => v
    | None => field (JObj acc) k
    end.
Proof.
  intros U. unfold field. rewrite (lookup_spread _ _ _ U).
  destruct (lookup k fs); reflexivity.
Qed.

(** A configuration override wins over everything a public request sets:
    each property of the request is the override's when the override has
    it, and otherwise that of the GET the library builds. *)
Theorem public_request_override_wins
  (axios : JsVal -> Completion JsVal)
  (basic : BasicAuth.RawAgent) (hmac : Hmac.RawAgent)
  (endpoint : string) (queryParams : JsVal) (fs : Fields) (k : string) :
  uniqueKeys fs = true ->
  let base :=
    requestConfig "GET"
      [("url", JStr ("/" ++ endpoint ++ "?" ++ Qs.stringify queryParams))] in
  sentOne (BasicAuth.publicRequest axios basic endpoint queryParams (JObj fs))
    (overrides fs base k)
  /\ sentOne (Hmac.getPublicEndpoint axios hmac endpoint queryParams (JObj fs))
       (overrides fs base k).
Proof.
  intros U base.
  split; unfold sentOne, overrides; simpl; rewrite (lookup_fold_set _ _ _ U);
    destruct (lookup k fs); reflexivity.
Qed.

Lemma public_request_override_wins_witness :
  sentOne
    (BasicAuth.publicRequest (fun _ => Normal JNull)
       (BasicAuth.getRawAgent JUndefined) "public/ticker" JNull
       (JObj [("method", JStr "POST"); ("timeout", JNum 10)]))
    (overrides [("method", JStr "POST"); ("timeout", JNum 10)]
       (requestConfig "GET" [("url", JStr "/public/ticker?")]) "method")
  /\ sentOne
       (Hmac.getPublicEndpoint (fun _ => Normal JNull)
          (Hmac.getRawAgent JUndefined) "public/ticker" JNull
          (JObj [("method", JStr "POST"); ("timeout", JNum 10)]))
       (overrides [("method", JStr "POST"); ("timeout", JNum 10)]
          (requestConfig "GET" [("url", JStr "/public/ticker?")]) "method").
Proof.
  exact (public_request_override_wins (fun _ => Normal JNull)
           (BasicAuth.getRawAgent JUndefined) (Hmac.getRawAgent JUndefined)
           "public/ticker" JNull
           [("method", JStr "POST"); ("timeout", JNum 10)] "method" eq_refl).
Defined.

(** Closes the comparison of a request the code built with the one a
    theorem states, property by property: they differ at most in how the
    headers are written down. *)
Ltac same_fields U k fs :=
  unfold sentOne;
  match goal with
  | |- match issued ?o with _ => _ end =>
      let l := eval simpl in (issued o) in change (issued o) with l
  end;
  cbv beta iota; unfold overrides, field;
  rewrite (lookup_fold_set _ _ _ U);
  destruct (lookup k fs) eqn:?; [reflexivity|];
  unfold requestConfig, defaultHeaders; cbn [lookup app];
  repeat match goal with
         | |- context [(?key =? k)] =>
             let E := fresh "E" in
             destruct (key =? k) eqn:E;
             [ apply String.eqb_eq in E; subst k;
               repeat match goal with
                      | H : lookup _ fs = None |- _ => rewrite H
                      end;
               reflexivity | ]
         end;
  reflexivity.

(** A configuration override wins over everything a private request sets,
    the verb, the url, the body and the Basic Auth included: each property
    of the request is the override's when the override has it, and
    otherwise that of the request the library builds with its default
    headers. *)
Theorem private_request_override_wins
  (axios : JsVal -> Completion JsVal)
  (a : BasicAuth.IApiAuth) (hmac : Hmac.RawAgent)
  (endpoint method : string) (params : JsVal) (fs : Fields) (k : string) :
  uniqueKeys fs = true ->
  truthy (Hmac.isUpgraded hmac) = true ->
  let query := JStr ("/" ++ endpoint ++ "?" ++ Qs.stringify params) in
  let bare := JStr ("/" ++ endpoint) in
  sentOne
    (BasicAuth.privateRequest axios
       (BasicAuth.getRawAgent (BasicAuth.authObject a))
       endpoint method params (JObj fs))
    (overrides fs
       (requestConfig method
          [ ("auth", httpBasicAuth a);
            ("url",
              JStr (if method =? "GET"
                    then "/" ++ endpoint ++ "/" ++ Qs.stringify params
                    else "/" ++ endpoint));
            ("data", if method =? "GET" then JNull else params) ]) k)
  /\ sentOne (Hmac.getFromPrivateEndpoint axios hmac endpoint params (JObj fs))
       (overrides fs (requestConfig "GET" [("url", query)]) k)
  /\ sentOne (Hmac.deleteFromPrivateEndpoint axios hmac endpoint params (JObj fs))
       (overrides fs (requestConfig "DELETE" [("url", query)]) k)
  /\ sentOne (Hmac.postToPrivateEndpoint axios hmac endpoint params (JObj fs))
       (overrides fs (requestConfig "POST" [("url", bare); ("data", params)]) k)
  /\ sentOne (Hmac.putToPrivateEndpoint axios hmac endpoint params (JObj fs))
       (overrides fs (requestConfig "PUT" [("url", bare); ("data", params)]) k)
  /\ sentOne (Hmac.patchToPrivateEndpoint axios hmac endpoint params (JObj fs))
       (overrides fs (requestConfig "PATCH" [("url", bare); ("data", params)]) k).
Proof.
  intros U T query bare. subst query bare.
  repeat split.
  - unfold BasicAuth.privateRequest. same_fields U k fs.
  - unfold Hmac.getFromPrivateEndpoint. rewrite T. same_fields U k fs.
  - unfold Hmac.deleteFromPrivateEndpoint. rewrite T. same_fields U k fs.
  - unfold Hmac.postToPrivateEndpoint. rewrite T. same_fields U k fs.
  - unfold Hmac.putToPrivateEndpoint. rewrite T. same_fields U k fs.
  - unfold Hmac.patchToPrivateEndpoint. rewrite T. same_fields U k fs.
Qed.

Lemma private_request_override_wins_witness :
  sentOne
    (BasicAuth.privateRequest (fun _ => Normal JNull)
       (BasicAuth.getRawAgent
          (BasicAuth.authObject
             {| BasicAuth.publicKey := "pk"; BasicAuth.privateKey := "sk" |}))
       "order" "POST" (JObj [("symbol", JStr "ETHBTC")])
       (JObj [("url", JStr "/elsewhere"); ("auth", JNull)]))
    (overrides [("url", JStr "/elsewhere"); ("auth", JNull)]
       (requestConfig "POST"
          [ ("auth",
              httpBasicAuth
                {| BasicAuth.publicKey := "pk"; BasicAuth.privateKey := "sk" |});
            ("url", JStr "/order");
            ("data", JObj [("symbol", JStr "ETHBTC")]) ])
       "url").
Proof.
  exact (proj1
           (private_request_override_wins (fun _ => Normal JNull)
              {| BasicAuth.publicKey := "pk"; BasicAuth.privateKey := "sk" |}
              (Hmac.getRawAgent (JObj [("publicKey", JStr "pk")]))
              "order" "POST" (JObj [("symbol", JStr "ETHBTC")])
              [("url", JStr "/elsewhere"); ("auth", JNull)] "url"
              eq_refl eq_refl)).
Defined.

(** The request carries exactly the headers [hv] of the override. *)
Ltac headers_sent U H :=
  unfold sentOne;
  match goal with
  | |- match issued ?o with _ => _ end =>
      let l := eval simpl in (issued o) in change (issued o) with l
  end;
  cbv beta iota; unfold field;
  rewrite (lookup_fold_set _ _ _ U), H; reflexivity.

(** The headers of a private request are not merged.  When the override
    carries headers of its own, the code merges them into the default
    headers, and the spread of the override then puts the override's headers
    back in place of the merge: the default [Content-Type] and [User-Agent]
    reach the transport only if the override's headers repeat them. *)
Theorem override_headers_replace_the_merge
  (axios : JsVal -> Completion JsVal)
  (a : BasicAuth.IApiAuth) (hmac : Hmac.RawAgent)
  (endpoint method : string) (params : JsVal) (fs h : Fields) :
  uniqueKeys fs = true ->
  uniqueKeys h = true ->
  lookup "headers" fs = Some (JObj h) ->
  truthy (Hmac.isUpgraded hmac) = true ->
  (exists merged,
      privateHeaders (JObj fs) = Normal (JObj merged)
      /\ lookup "Content-Type" merged
         = match lookup "Content-Type" h with
           | Some v => Some v
           | None => Some (JStr "application/json")
           end)
  /\ sentOne
       (BasicAuth.privateRequest axios
          (BasicAuth.getRawAgent (BasicAuth.authObject a))
          endpoint method params (JObj fs))
       (fun request => field request "headers" = JObj h)
  /\ sentOne (Hmac.getFromPrivateEndpoint axios hmac endpoint params (JObj fs))
       (fun request => field request "headers" = JObj h)
  /\ sentOne (Hmac.deleteFromPrivateEndpoint axios hmac endpoint params (JObj fs))
       (fun request => field request "headers" = JObj h)
  /\ sentOne (Hmac.postToPrivateEndpoint axios hmac endpoint params (JObj fs))
       (fun request => field request "headers" = JObj h)
  /\ sentOne (Hmac.putToPrivateEndpoint axios hmac endpoint params (JObj fs))
       (fun request => field request "headers" = JObj h)
  /\ sentOne (Hmac.patchToPrivateEndpoint axios hmac endpoint params (JObj fs))
       (fun request => field request "headers" = JObj h).
Proof.
  intros U Uh H T. repeat split.
  - unfold privateHeaders. simpl. rewrite H. simpl. eexists. split.
    + reflexivity.
    + rewrite (lookup_fold_set _ _ _ Uh). destruct (lookup "Content-Type" h);
        reflexivity.
  - unfold BasicAuth.privateRequest. headers_sent U H.
  - unfold Hmac.getFromPrivateEndpoint. rewrite T. headers_sent U H.
  - unfold Hmac.deleteFromPrivateEndpoint. rewrite T. headers_sent U H.
  - unfold Hmac.postToPrivateEndpoint. rewrite T. headers_sent U H.
  - unfold Hmac.putToPrivateEndpoint. rewrite T. headers_sent U H.
  - unfold Hmac.patchToPrivateEndpoint. rewrite T. headers_sent U H.
Qed.

Lemma override_headers_replace_the_merge_witness :
  sentOne
    (BasicAuth.privateRequest (fun _ => Normal JNull)
       (BasicAuth.getRawAgent
          (BasicAuth.authObject
             {| BasicAuth.publicKey := "pk"; BasicAuth.privateKey := "sk" |}))
       "order" "POST" JNull
       (JObj [("headers", JObj [("X-Trace", JStr "1")])]))
    (fun request => field request "headers" = JObj [("X-Trace", JStr "1")]).
Proof.
  exact (proj1 (proj2
           (override_headers_replace_the_merge (fun _ => Normal JNull)
              {| BasicAuth.publicKey := "pk"; BasicAuth.privateKey := "sk" |}
              (Hmac.getRawAgent (JObj [("publicKey", JStr "pk")]))
              "order" "POST" JNull
              [("headers", JObj [("X-Trace", JStr "1")])]
              [("X-Trace", JStr "1")]
              eq_refl eq_refl eq_refl eq_refl))).
Defined.

(* ===================================================================== *)
(** ** The two variants side by side *)
(* ===================================================================== *)

Lemma spread_defaultNull (config : JsVal) (acc : Fields) :
  spread (defaultNull config) acc = spread config acc.
Proof. destruct config; reflexivity. Qed.

(** The public operations never look at the credentials, and the two
    variants agree on them: clients with the same configuration override
    behave alike on every public operation, whatever either was built or
    upgraded with. *)
Theorem public_calls_agree_across_variants
  (axios : JsVal -> Completion JsVal)
  (basic : BasicAuth.HitBtcClient) (hmac : Hmac.HitBtcClient)
  (call : PublicCall) :
  BasicAuth.configOverride basic = Hmac.configOverride hmac ->
  BasicAuth.callPublic axios basic call = Hmac.callPublic axios hmac call.
Proof.
  intros E.
  destruct call; simpl;
    unfold BasicAuth.getAvailableCurrencySymbols, Hmac.getAvailableCurrencySymbols,
      BasicAuth.getSymbolInfo, Hmac.getSymbolInfo,
      BasicAuth.getAvailableCurrencies, Hmac.getAvailableCurrencies,
      BasicAuth.getCurrencyInfo, Hmac.getCurrencyInfo,
      BasicAuth.getTicker, Hmac.getTicker,
      BasicAuth.getTickerInfo, Hmac.getTickerInfo,
      BasicAuth.getTradesInfo, Hmac.getTradesInfo,
      BasicAuth.getOrderBook, Hmac.getOrderBook,
      BasicAuth.getCandle, Hmac.getCandle,
      BasicAuth.publicRequest, Hmac.getPublicEndpoint, publicRequestBody;
    rewrite spread_defaultNull, E; reflexivity.
Qed.

Lemma public_calls_agree_across_variants_witness :
  BasicAuth.callPublic (fun _ => Normal (JStr "ok"))
    (BasicAuth.getClient JUndefined JNull)
    (GetTickerInfo "ETHBTC")
  = Hmac.callPublic (fun _ => Normal (JStr "ok"))
      (Hmac.clientUpgrade (Hmac.getClient JUndefined JUndefined)
         (JObj [("publicKey", JStr "pk")]))
      (GetTickerInfo "ETHBTC").
Proof.
  exact (public_calls_agree_across_variants (fun _ => Normal (JStr "ok"))
           (BasicAuth.getClient JUndefined JNull)
           (Hmac.clientUpgrade (Hmac.getClient JUndefined JUndefined)
              (JObj [("publicKey", JStr "pk")]))
           (GetTickerInfo "ETHBTC") eq_refl).
Defined.

(** On credentialed clients without configuration override the two
    variants use the same HTTP verb for every private operation except
    [createCryptoDepositAddress]. *)
Theorem private_verbs_agree_across_variants
  (axios : JsVal -> Completion JsVal)
  (a : BasicAuth.IApiAuth) (h : Hmac.IApiAuth) (call : PrivateCall) :
  isCreateCryptoDepositAddress call = false ->
  map (fun request => field request "method")
    (issued (BasicAuth.callPrivate axios
               (BasicAuth.getClient (BasicAuth.authObject a) JNull) call))
  = map (fun request => field request "method")
      (issued (Hmac.callPrivate axios
                 (Hmac.getClient (Hmac.authObject h) JNull) call)).
Proof. destruct call; intros H; try discriminate H; reflexivity. Qed.

Lemma private_verbs_agree_across_variants_witness :
  map (fun request => field request "method")
    (issued (BasicAuth.callPrivate (fun _ => Normal JNull)
               (BasicAuth.getClient
                  (BasicAuth.authObject
                     {| BasicAuth.publicKey := "pk"; BasicAuth.privateKey := "sk" |})
                  JNull)
               (CancelAllOrders (JObj [("symbol", JStr "ETHBTC")]))))
  = map (fun request => field request "method")
      (issued (Hmac.callPrivate (fun _ => Normal JNull)
                 (Hmac.getClient
                    (Hmac.authObject
                       {| Hmac.publicKey := "pk"; Hmac.privateKey := "sk";
                          Hmac.passphrase := "pp" |})
                    JNull)
                 (CancelAllOrders (JObj [("symbol", JStr "ETHBTC")])))).
Proof.
  exact (private_verbs_agree_across_variants (fun _ => Normal JNull)
           {| BasicAuth.publicKey := "pk"; BasicAuth.privateKey := "sk" |}
           {| Hmac.publicKey := "pk"; Hmac.privateKey := "sk";
              Hmac.passphrase := "pp" |}
           (CancelAllOrders (JObj [("symbol", JStr "ETHBTC")])) eq_refl).
Defined.

(** Where the parameters of a private request go in the HMAC variant, on an
    upgraded agent without configuration override: GET and DELETE put them
    in the query string and send no body; POST, PUT and PATCH ask for the
    bare endpoint and send them as the body. *)
Theorem hmac_params_by_verb
  (axios : JsVal -> Completion JsVal) (this : Hmac.RawAgent)
  (endpoint : string) (params : JsVal) :
  truthy (Hmac.isUpgraded this) = true ->
  let query := JStr ("/" ++ endpoint ++ "?" ++ Qs.stringify params) in
  let bare := JStr ("/" ++ endpoint) in
  issued (Hmac.getFromPrivateEndpoint axios this endpoint params JNull)
  = [requestConfig "GET" [("url", query)]]
  /\ issued (Hmac.deleteFromPrivateEndpoint axios this endpoint params JNull)
     = [requestConfig "DELETE" [("url", query)]]
  /\ issued (Hmac.postToPrivateEndpoint axios this endpoint params JNull)
     = [requestConfig "POST" [("url", bare); ("data", params)]]
  /\ issued (Hmac.putToPrivateEndpoint axios this endpoint params JNull)
     = [requestConfig "PUT" [("url", bare); ("data", params)]]
  /\ issued (Hmac.patchToPrivateEndpoint axios this endpoint params JNull)
     = [requestConfig "PATCH" [("url", bare); ("data", params)]].
Proof.
  intros T query bare.
  unfold Hmac.getFromPrivateEndpoint, Hmac.deleteFromPrivateEndpoint,
    Hmac.postToPrivateEndpoint, Hmac.putToPrivateEndpoint,
    Hmac.patchToPrivateEndpoint.
  rewrite T. repeat split.
Qed.

Lemma hmac_params_by_verb_witness :
  issued (Hmac.deleteFromPrivateEndpoint (fun _ => Normal JNull)
            (Hmac.getRawAgent (JObj [("publicKey", JStr "pk")]))
            "order" (JObj [("symbol", JStr "ETHBTC")]) JNull)
  = [requestConfig "DELETE" [("url", JStr "/order?symbol=ETHBTC")]].
Proof.
  exact (proj1 (proj2
           (hmac_params_by_verb (fun _ => Normal JNull)
              (Hmac.getRawAgent (JObj [("publicKey", JStr "pk")]))
              "order" (JObj [("symbol", JStr "ETHBTC")]) eq_refl))).
Defined.

(* ===================================================================== *)
(** ** When a call reaches the transport *)
(* ===================================================================== *)

Lemma issuePrivate_sends
  (axios : JsVal -> Completion JsVal) (own : Fields) (config : JsVal) :
  exists request, Hmac.issuePrivate axios own config = send axios request.
Proof.
  unfold Hmac.issuePrivate.
  destruct (privateHeaders_defined config) as [headers ->].
  simpl. eexists. reflexivity.
Qed.

Lemma basic_privateRequest_cases
  (axios : JsVal -> Completion JsVal) (this : BasicAuth.RawAgent)
  (endpoint method : string) (dataParams config : JsVal) :
  if truthy (BasicAuth.isUpgraded this)
  then
    if nullish (BasicAuth.authParam this)
    then BasicAuth.privateRequest axios this endpoint method dataParams config
         = rejectUnsent (cannotRead "privateKey" (BasicAuth.authParam this))
    else exists request,
        BasicAuth.privateRequest axios this endpoint method dataParams config
        = send axios request
  else BasicAuth.privateRequest axios this endpoint method dataParams config
       = rejectUnsent (JStr keysRequired).
Proof.
  unfold BasicAuth.privateRequest.
  destruct (truthy (BasicAuth.isUpgraded this)); simpl; [|reflexivity].
  destruct (privateHeaders_defined config) as [headers ->]. simpl.
  destruct (BasicAuth.authParam this); simpl;
    try reflexivity; eexists; reflexivity.
Qed.

Lemma hmac_private_cases
  (axios : JsVal -> Completion JsVal) (client : Hmac.HitBtcClient)
  (call : PrivateCall) :
  if truthy (Hmac.clientIsUpgraded client)
  then exists request, Hmac.callPrivate axios client call = send axios request
  else Hmac.callPrivate axios client call = rejectUnsent (JStr keysRequired).
Proof.
  unfold Hmac.clientIsUpgraded.
  destruct (truthy (Hmac.isUpgraded (Hmac.rawAgent client))) eqn:T;
    destruct call; simpl;
    unfold Hmac.listOpenOrders, Hmac.createNewOrder, Hmac.cancelAllOrders,
      Hmac.getOrderByClientId, Hmac.createNewClientIdOrder,
      Hmac.cancelClientIdOrder, Hmac.replaceOrder, Hmac.getTradingBalances,
      Hmac.getTradingFee, Hmac.getTrades, Hmac.getOrders,
      Hmac.getTradesByOrderId, Hmac.getMainAccountBalance,
      Hmac.getAccountTransactions, Hmac.getAccountTransactionById,
      Hmac.withdrawCrypto, Hmac.commitCryptoWithdraw,
      Hmac.rollbackCryptoWithdraw, Hmac.getCryptoDepositAddress,
      Hmac.createCryptoDepositAddress, Hmac.transferToTrading,
      Hmac.getFromPrivateEndpoint, Hmac.deleteFromPrivateEndpoint,
      Hmac.postToPrivateEndpoint, Hmac.putToPrivateEndpoint,
      Hmac.patchToPrivateEndpoint;
    rewrite T; simpl; try reflexivity; apply issuePrivate_sends.
Qed.

Lemma basic_private_cases
  (axios : JsVal -> Completion JsVal) (client : BasicAuth.HitBtcClient)
  (call : PrivateCall) :
  if truthy (BasicAuth.clientIsUpgraded client)
  then
    if nullish (BasicAuth.authParam (BasicAuth.rawAgent client))
    then BasicAuth.callPrivate axios client call
         = rejectUnsent
             (cannotRead "privateKey"
                (BasicAuth.authParam (BasicAuth.rawAgent client)))
    else exists request,
        BasicAuth.callPrivate axios client call = send axios request
  else BasicAuth.callPrivate axios client call = rejectUnsent (JStr keysRequired).
Proof.
  destruct call; apply basic_privateRequest_cases.
Qed.

(** A private call reaches the transport exactly when the credential state
    lets it.  In the HMAC variant: when [this.auth] is truthy; otherwise it
    rejects with the key message.  In the Basic Auth variant: when
    [this.auth] is truthy and the credentials given at construction are
    neither [undefined] nor [null]; with a falsy [this.auth] it rejects with
    the key message, and with none at construction with a TypeError.  A
    rejected call sends nothing. *)
Theorem private_calls_reach_transport
  (axios : JsVal -> Completion JsVal)
  (basic : BasicAuth.HitBtcClient) (hmac : Hmac.HitBtcClient)
  (call : PrivateCall) :
  (if truthy (Hmac.clientIsUpgraded hmac) return Prop
   then exists request,
       Hmac.callPrivate axios hmac call
       = {| settled := settled (send axios request); issued := [request] |}
   else Hmac.callPrivate axios hmac call
        = {| settled := Throw (JStr keysRequired); issued := [] |})
  /\
  (if truthy (BasicAuth.clientIsUpgraded basic) return Prop
   then
     if nullish (BasicAuth.authParam (BasicAuth.rawAgent basic)) return Prop
     then BasicAuth.callPrivate axios basic call
          = {| settled :=
                 Throw (cannotRead "privateKey"
                          (BasicAuth.authParam (BasicAuth.rawAgent basic)));
               issued := [] |}
     else exists request,
         BasicAuth.callPrivate axios basic call
         = {| settled := settled (send axios request); issued := [request] |}
   else BasicAuth.callPrivate axios basic call
        = {| settled := Throw (JStr keysRequired); issued := [] |}).
Proof.
  split.
  - exact (hmac_private_cases axios hmac call).
  - exact (basic_private_cases axios basic call).
Qed.

(** Every operation of both facades, on every client and with every
    transport, sends at most one request.  A call that sends none rejects;
    a call that sends one settles as the transport does on that request:
    fulfilled with the very response, or rejected with the unwrapped
    error. *)
Theorem every_call_sends_at_most_once
  (axios : JsVal -> Completion JsVal) (x : AnyCall) :
  match issued (run axios x) with
  | [] => exists reason, settled (run axios x) = Throw reason
  | [request] =>
      settled (run axios x)
      = match axios request with
        | Normal response => Normal response
        | Throw err =>
            match rejectionReason err with
            | Normal reason => Throw reason
            | Throw raised => Throw raised
            end
        end
  | _ => False
  end.
Proof.
  destruct x as [client call|client call|client call|client call]; simpl.
  - destruct call; reflexivity.
  - pose proof (basic_private_cases axios client call) as H.
    destruct (truthy (BasicAuth.clientIsUpgraded client));
      try destruct (nullish (BasicAuth.authParam (BasicAuth.rawAgent client)));
      try match type of H with exists _, _ => destruct H as [request H] end;
      rewrite H; simpl; try reflexivity; eexists; reflexivity.
  - destruct call; reflexivity.
  - pose proof (hmac_private_cases axios client call) as H.
    destruct (truthy (Hmac.clientIsUpgraded client));
      try match type of H with exists _, _ => destruct H as [request H] end;
      rewrite H; simpl; try reflexivity; eexists; reflexivity.
Qed.

(** Upgrading an already upgraded client with further truthy credentials
    changes nothing in what its private operations do, in either variant:
    the Basic Auth variant keeps sending the credentials of construction,
    the HMAC variant sends none. *)
Theorem upgrade_again_changes_nothing
  (axios : JsVal -> Completion JsVal)
  (basic : BasicAuth.HitBtcClient) (hmac : Hmac.HitBtcClient)
  (newAuth : JsVal) (call : PrivateCall) :
  truthy (BasicAuth.clientIsUpgraded basic) = true ->
  truthy (Hmac.clientIsUpgraded hmac) = true ->
  truthy newAuth = true ->
  BasicAuth.callPrivate axios (BasicAuth.clientUpgrade basic newAuth) call
  = BasicAuth.callPrivate axios basic call
  /\ Hmac.callPrivate axios (Hmac.clientUpgrade hmac newAuth) call
     = Hmac.callPrivate axios hmac call.
Proof.
  intros Tb Th Tn. unfold BasicAuth.clientIsUpgraded in Tb.
  unfold Hmac.clientIsUpgraded in Th.
  split; destruct call; simpl;
    unfold BasicAuth.listOpenOrders, BasicAuth.createNewOrder,
      BasicAuth.cancelAllOrders, BasicAuth.getOrderByClientId,
      BasicAuth.createNewClientIdOrder, BasicAuth.cancelClientIdOrder,
      BasicAuth.replaceOrder, BasicAuth.getTradingBalances,
      BasicAuth.getTradingFee, BasicAuth.getTrades, BasicAuth.getOrders,
      BasicAuth.getTradesByOrderId, BasicAuth.getMainAccountBalance,
      BasicAuth.getAccountTransactions, BasicAuth.getAccountTransactionById,
      BasicAuth.withdrawCrypto, BasicAuth.commitCryptoWithdraw,
      BasicAuth.rollbackCryptoWithdraw, BasicAuth.getCryptoDepositAddress,
      BasicAuth.createCryptoDepositAddress, BasicAuth.transferToTrading,
      BasicAuth.privateRequest,
      Hmac.listOpenOrders, Hmac.createNewOrder, Hmac.cancelAllOrders,
      Hmac.getOrderByClientId, Hmac.createNewClientIdOrder,
      Hmac.cancelClientIdOrder, Hmac.replaceOrder, Hmac.getTradingBalances,
      Hmac.getTradingFee, Hmac.getTrades, Hmac.getOrders,
      Hmac.getTradesByOrderId, Hmac.getMainAccountBalance,
      Hmac.getAccountTransactions, Hmac.getAccountTransactionById,
      Hmac.withdrawCrypto, Hmac.commitCryptoWithdraw,
      Hmac.rollbackCryptoWithdraw, Hmac.getCryptoDepositAddress,
      Hmac.createCryptoDepositAddress, Hmac.transferToTrading,
      Hmac.getFromPrivateEndpoint, Hmac.deleteFromPrivateEndpoint,
      Hmac.postToPrivateEndpoint, Hmac.putToPrivateEndpoint,
      Hmac.patchToPrivateEndpoint;
    simpl; rewrite ?Tb, ?Th, ?Tn; reflexivity.
Qed.

Lemma upgrade_again_changes_nothing_witness :
  BasicAuth.callPrivate (fun _ => Normal JNull)
    (BasicAuth.clientUpgrade
       (BasicAuth.getClient
          (BasicAuth.authObject
             {| BasicAuth.publicKey := "old"; BasicAuth.privateKey := "old" |})
          JNull)
       (BasicAuth.authObject
          {| BasicAuth.publicKey := "new"; BasicAuth.privateKey := "new" |}))
    GetMainAccountBalance
  = BasicAuth.callPrivate (fun _ => Normal JNull)
      (BasicAuth.getClient
         (BasicAuth.authObject
            {| BasicAuth.publicKey := "old"; BasicAuth.privateKey := "old" |})
         JNull)
      GetMainAccountBalance.
Proof.
  exact (proj1
           (upgrade_again_changes_nothing (fun _ => Normal JNull)
              (BasicAuth.getClient
                 (BasicAuth.authObject
                    {| BasicAuth.publicKey := "old";
                       BasicAuth.privateKey := "old" |})
                 JNull)
              (Hmac.getClient (JObj [("publicKey", JStr "old")]) JNull)
              (BasicAuth.authObject
                 {| BasicAuth.publicKey := "new"; BasicAuth.privateKey := "new" |})
              GetMainAccountBalance eq_refl eq_refl eq_refl)).
Defined.

(** On a client built with credentials and without configuration override,
    every private operation of the Basic Auth variant sends the HTTP Basic
    Auth of those credentials, the public key as user name and the private
    key as password; the public operations of both variants send no
    [auth]. *)
Theorem basic_auth_on_every_private_call
  (axios : JsVal -> Completion JsVal)
  (a : BasicAuth.IApiAuth) (h : Hmac.IApiAuth)
  (priv : PrivateCall) (pub : PublicCall) :
  map (fun request => field request "auth")
    (issued (BasicAuth.callPrivate axios
               (BasicAuth.getClient (BasicAuth.authObject a) JNull) priv))
  = [ JObj [ ("password", JStr (BasicAuth.privateKey a));
             ("username", JStr (BasicAuth.publicKey a)) ] ]
  /\ map (fun request => field request "auth")
       (issued (BasicAuth.callPublic axios
                  (BasicAuth.getClient (BasicAuth.authObject a) JNull) pub))
     = [JUndefined]
  /\ map (fun request => field request "auth")
       (issued (Hmac.callPublic axios
                  (Hmac.getClient (Hmac.authObject h) JNull) pub))
     = [JUndefined].
Proof. repeat split; [destruct priv | destruct pub | destruct pub]; reflexivity. Qed.

(* ===================================================================== *)
(** ** The method of a signature *)
(* ===================================================================== *)

Lemma upperChar_idempotent (c : ascii) :
  Hmac.upperChar (Hmac.upperChar c) = Hmac.upperChar c.
Proof. destruct c as [[] [] [] [] [] [] [] []]; reflexivity. Qed.

Lemma toUpperCase_idempotent (s : string) :
  Hmac.toUpperCase (Hmac.toUpperCase s) = Hmac.toUpperCase s.
Proof.
  induction s as [|c s IH]; simpl; [reflexivity|].
  now rewrite upperChar_idempotent, IH.
Qed.

(** The signature does not depend on the case of the method: two methods
    with the same upper-case form, such as [post] and [POST], sign alike at
    the same clock reading, and upper-casing the method beforehand changes
    nothing. *)
Theorem signMessage_ignores_method_case
  (fromBase64 : string -> Hmac.Buffer)
  (hmacSha256 : Hmac.Buffer -> string -> Hmac.Buffer)
  (toBase64 : Hmac.Buffer -> string)
  (now : Z) (privateKey path method method' : string) (body : JsVal) :
  Hmac.toUpperCase method = Hmac.toUpperCase method' ->
  Hmac.signMessage fromBase64 hmacSha256 toBase64 now privateKey path method body
  = Hmac.signMessage fromBase64 hmacSha256 toBase64 now privateKey path method'
      body
  /\ Hmac.signMessage fromBase64 hmacSha256 toBase64 now privateKey path
       (Hmac.toUpperCase method) body
     = Hmac.signMessage fromBase64 hmacSha256 toBase64 now privateKey path
         method body.
Proof.
  intros E. unfold Hmac.signMessage.
  rewrite toUpperCase_idempotent, E. split; reflexivity.
Qed.

Lemma signMessage_ignores_method_case_witness :
  Hmac.signMessage (fun _ => nil) (fun _ _ => nil) (fun _ => "digest")
    1514764800123 "c2s=" "/order" "post" JUndefined
  = Hmac.signMessage (fun _ => nil) (fun _ _ => nil) (fun _ => "digest")
      1514764800123 "c2s=" "/order" "POST" JUndefined.
Proof.
  exact (proj1
           (signMessage_ignores_method_case
              (fun _ => nil) (fun _ _ => nil) (fun _ => "digest")
              1514764800123 "c2s=" "/order" "post" "POST" JUndefined eq_refl)).
Defined.
